(** * pcap-analyzer: DNS correlation cache and HTTP stream analysis

    A shallow embedding of the Go sources

    - [internal/dns/cache.go]   (the [Cache] with forward and reverse maps),
    - [internal/dns/parser.go]  ([ParsePacket]),
    - [internal/http/stream.go] ([Stream.Run] and its printers),
    - [cmd/pcap-analyzer/main.go] ([HTTPStream.run], the printers, the packet
      loop of [main] with its port filter),

    followed by the properties of the design document that concern them.

    Conventions.  Go [string]s are [string]; byte streams are [list byte];
    Go maps are [gmap]; a method that mutates its receiver takes the old
    state and returns the new one.  Calls that leave the repository (the
    resolver, the HTTP reader of the standard library, the gzip reader) are
    parameters of the sections that use them. *)

From Stdlib Require Import Strings.String Strings.Ascii Strings.Byte List ZArith Lia Bool.
From Stdlib Require Import Numbers.DecimalString.
From stdpp Require Import base gmap strings list.

Local Open Scope string_scope.
Local Open Scope list_scope.

(* ===================================================================== *)
(** ** Go's [strings] package, as far as the sources use it *)
(* ===================================================================== *)

Module strings.

(** [len(s) >= len(suffix) && s[len(s)-len(suffix):] == suffix] *)
Definition HasSuffix (s suffix : string) : bool :=
  (String.length suffix <=? String.length s)%nat
  && String.eqb
       (String.substring (String.length s - String.length suffix)
                         (String.length suffix) s)
       suffix.

(** [if HasSuffix(s, suffix) { return s[:len(s)-len(suffix)] }; return s] *)
Definition TrimSuffix (s suffix : string) : string :=
  if HasSuffix s suffix
  then String.substring 0 (String.length s - String.length suffix) s
  else s.

(** [len(s) >= len(prefix) && s[:len(prefix)] == prefix] *)
Definition HasPrefix (s prefix : string) : bool :=
  (String.length prefix <=? String.length s)%nat
  && String.eqb (String.substring 0 (String.length prefix) s) prefix.

(** [Index(s, substr) >= 0] *)
Definition Contains (s substr : string) : bool :=
  match String.index 0 substr s with
  | Some _ => true
  | None => false
  end.

End strings.

(* ===================================================================== *)
(** ** Package [dns]: the correlation cache ([internal/dns/cache.go]) *)
(* ===================================================================== *)

Module dns.

(** [type Cache struct { mu; entries, rdnsCache map[string]string }].
    The mutex has no state of its own here: every critical section is one
    atomic transition of the cache (see [step] below). *)
Record Cache : Type := mkCache {
  entries : gmap string string;   (* IP -> FQDN *)
  rdnsCache : gmap string string  (* IP -> reverse DNS hostname *)
}.

Definition NewCache : Cache := {| entries := ∅; rdnsCache := ∅ |}.

Definition Add (ip fqdn : string) (c : Cache) : Cache :=
  {| entries := <[ip := strings.TrimSuffix fqdn "."]> (entries c);
     rdnsCache := rdnsCache c |}.

(** [fqdn, ok := c.entries[ip]]: the zero value and [false] when absent. *)
Definition Get (c : Cache) (ip : string) : string * bool :=
  match entries c !! ip with
  | Some fqdn => (fqdn, true)
  | None => ("", false)
  end.

Definition Size (c : Cache) : nat := size (entries c).

(** *** The resolver and the world

    [net.DefaultResolver.LookupAddr(ctx, ip)] leaves the program.  Its
    answer is [Some names] or [None] for an error (a timeout included).
    The answer may change from one call to the next, so the resolver is
    indexed by the number of look-ups already performed.  The world keeps
    the cache together with the log of the addresses looked up. *)

Definition Resolver : Type := nat -> string -> option (list string).

Record World : Type := mkWorld {
  cache : Cache;
  lookups : list string
}.

Definition setRdns (ip hostname : string) (w : World) : World :=
  {| cache := {| entries := entries (cache w);
                 rdnsCache := <[ip := hostname]> (rdnsCache (cache w)) |};
     lookups := lookups w |}.

Definition LookupAddr (R : Resolver) (ip : string) (w : World)
  : option (list string) * World :=
  (R (List.length (lookups w)) ip,
   {| cache := cache w; lookups := lookups w ++ [ip] |}).

(** The hostname stored and returned after a look-up: [""] on an error or
    an empty answer, else the first name without its trailing dot. *)
Definition answerHostname (names : option (list string)) : string :=
  match names with
  | None | Some [] => ""
  | Some (n :: _) => strings.TrimSuffix n "."
  end.

Definition GetWithRDNS (R : Resolver) (ip : string) (w : World)
  : string * World :=
  match Get (cache w) ip with
  | (fqdn, true) => (fqdn, w)
  | (_, false) =>
      match rdnsCache (cache w) !! ip with
      | Some hostname => (hostname, w)
      | None =>
          let '(names, w1) := LookupAddr R ip w in
          let hostname := answerHostname names in
          (hostname, setRdns ip hostname w1)
      end
  end.

(** [Add] on the world (the cache is shared by reference). *)
Definition recordAnswer (ip fqdn : string) (w : World) : World :=
  {| cache := Add ip fqdn (cache w); lookups := lookups w |}.

(** A sequence of resolutions, one after the other. *)
Definition resolveAll (R : Resolver) (ips : list string) (w : World) : World :=
  foldl (fun w ip => snd (GetWithRDNS R ip w)) w ips.

(** *** Concurrent callers

    [GetWithRDNS] holds the lock three times and calls the resolver with
    the lock released.  A caller is therefore at one of five points, and
    one [step] is what it does atomically from there. *)

Inductive pc : Type :=
| AtGet                                   (* before [c.Get(ip)] *)
| AtRdns                                  (* before the read of [rdnsCache] *)
| AtLookup                                (* before [LookupAddr] *)
| AtStore (names : option (list string))  (* before the write of [rdnsCache] *)
| Returned (hostname : string).

Record Caller : Type := mkCaller { arg : string; at_pc : pc }.

Definition step (R : Resolver) (t : Caller) (w : World) : Caller * World :=
  let ip := arg t in
  match at_pc t with
  | AtGet =>
      match Get (cache w) ip with
      | (fqdn, true) => (mkCaller ip (Returned fqdn), w)
      | (_, false) => (mkCaller ip AtRdns, w)
      end
  | AtRdns =>
      match rdnsCache (cache w) !! ip with
      | Some hostname => (mkCaller ip (Returned hostname), w)
      | None => (mkCaller ip AtLookup, w)
      end
  | AtLookup =>
      let '(names, w1) := LookupAddr R ip w in
      (mkCaller ip (AtStore names), w1)
  | AtStore names =>
      let hostname := answerHostname names in
      (mkCaller ip (Returned hostname), setRdns ip hostname w)
  | Returned _ => (t, w)
  end.

(** A schedule names the caller that moves next. *)
Fixpoint exec (R : Resolver) (sched : list nat) (ts : list Caller) (w : World)
  : list Caller * World :=
  match sched with
  | [] => (ts, w)
  | i :: sched' =>
      match ts !! i with
      | Some t =>
          let '(t', w') := step R t w in
          exec R sched' (<[i := t']> ts) w'
      | None => exec R sched' ts w
      end
  end.

Definition call (ip : string) : Caller := mkCaller ip AtGet.

(** *** [internal/dns/parser.go]

    The wire decoding is done by libraries; a packet carries the decoded
    message, if it has a DNS layer that unpacks. *)

Inductive RR : Type :=
| A (name addr : string)
| AAAA (name addr : string)
| CNAME (name target : string)
| OtherRR.

Record Msg : Type := mkMsg {
  Response : bool;
  Question : list (string * string);   (* name, type *)
  Answer : list RR
}.

Inductive Printed : Type :=
| DNSResponse (query : string) (answers : list RR)
| DNSQuery (query qtype : string).

Definition addAnswer (c : Cache) (rr : RR) : Cache :=
  match rr with
  | A name addr => Add addr name c
  | AAAA name addr => Add addr name c
  | CNAME _ _ => c
  | OtherRR => c
  end.

Definition isAddrOrAlias (rr : RR) : bool :=
  match rr with OtherRR => false | _ => true end.

Definition ParsePacket (layer : option Msg) (c : Cache) : list Printed * Cache :=
  match layer with
  | None => ([], c)
  | Some msg =>
      match Question msg with
      | [] => ([], c)
      | (question, qtype) :: _ =>
          if Response msg
          then ([DNSResponse question (List.filter isAddrOrAlias (Answer msg))],
                foldl addAnswer c (Answer msg))
          else ([DNSQuery question qtype], c)
      end
  end.

(** Number of reverse look-ups performed for [ip]. *)
Definition lookupCount (ip : string) (w : World) : nat :=
  List.length (List.filter (String.eqb ip) (lookups w)).

End dns.

(* ===================================================================== *)
(** ** The reader stack of a stream: [bytes.Buffer] under [bufio.Reader] *)
(* ===================================================================== *)

(** Go's [int] lengths. *)
Definition len {A : Type} (l : list A) : Z := Z.of_nat (List.length l).

Module bufio.

(** [bufio.NewReader(&h.r)]: [rd] is the unread content of the stream's
    [bytes.Buffer] (the reader's source, shared with the assembler, which
    appends to it), [buf] the bytes the reader has taken from it and not
    yet handed out. *)
Record Reader : Type := mkReader {
  rd : list byte;
  buf : list byte
}.

Definition defaultBufSize : nat := 4096.

Definition NewReader (Buffer : list byte) : Reader :=
  {| rd := Buffer; buf := [] |}.

Definition Buffered (b : Reader) : Z := len (buf b).

(** One read of the source into the free space of the buffer; the source
    hands over what it holds, up to that space. *)
Definition fill (b : Reader) : Reader :=
  let n := Nat.min (defaultBufSize - List.length (buf b)) (List.length (rd b)) in
  {| rd := drop n (rd b); buf := buf b ++ take n (rd b) |}.

(** [Peek(n)]: the next [n] bytes without advancing, or fewer with an
    error ([true]) when the source runs dry first. *)
Definition Peek (n : nat) (b : Reader) : list byte * bool * Reader :=
  if (n <=? List.length (buf b))%nat then (take n (buf b), false, b)
  else
    let b' := fill b in
    if (n <=? List.length (buf b'))%nat then (take n (buf b'), false, b')
    else (buf b', true, b').

End bufio.

(* ===================================================================== *)
(** ** What the sources see of [net/http] and [compress/gzip] *)
(* ===================================================================== *)

Module http.

(** [http.Header], a [map[string][]string]. *)
Abbreviation Header := (gmap string (list string)).

(** [h.Get(key)] for a key in canonical form, as the sources pass it:
    the first value, or [""]. *)
Definition Header_Get (h : Header) (key : string) : string :=
  match h !! key with
  | Some (v :: _) => v
  | _ => ""
  end.

Record URL : Type := mkURL { Path : string; RawQuery : string }.

(** The fields of [http.Request] and [http.Response] that the sources
    read.  [B] is the type of the body reader; [None] is a nil body. *)
Record Request (B : Type) : Type := mkRequest {
  Method : string;
  URL_ : URL;
  Proto : string;
  Header_ : Header;
  ContentLength : Z;
  Host : string;
  Body : option B
}.

Record Response (B : Type) : Type := mkResponse {
  Status : string;
  RProto : string;
  RHeader : Header;
  RBody : option B
}.

Arguments Method {B} _.
Arguments URL_ {B} _.
Arguments Proto {B} _.
Arguments Header_ {B} _.
Arguments ContentLength {B} _.
Arguments Host {B} _.
Arguments Body {B} _.
Arguments Status {B} _.
Arguments RProto {B} _.
Arguments RHeader {B} _.
Arguments RBody {B} _.
Arguments mkRequest {B}.
Arguments mkResponse {B}.

(** The library calls.  A reader call returns [None] for a non-nil error.
    [Read bd n b] is one [bd.Read(p)] with [len(p) = n]: the bytes stored
    in [p[:k]], the body reader afterwards, and the stream reader
    afterwards.  [gunzip] is [gzip.NewReader] followed by [io.ReadAll]. *)
Class Lib (B : Type) : Type := mkLib {
  ReadRequest : bufio.Reader -> option (Request B) * bufio.Reader;
  ReadResponse : bufio.Reader -> option (Response B) * bufio.Reader;
  Read : B -> Z -> bufio.Reader -> list byte * B * bufio.Reader;
  Close : B -> bufio.Reader -> bufio.Reader;
  gunzip : list byte -> option (list byte)
}.

(** The contract of [io.Reader]: a [Read] stores [0 <= k <= len(p)] bytes. *)
Definition ReadWithinBuffer {B : Type} (L : Lib B) : Prop :=
  forall bd n b, (0 <= n)%Z -> (len (Read bd n b).1.1 <= n)%Z.

End http.

(* ===================================================================== *)
(** ** What a run prints *)
(* ===================================================================== *)

(** The printed report, one record per block of [fmt.Printf] calls. *)

Inductive BodyNote : Type :=
| Plain              (* "(%d bytes)" *)
| Decompressed       (* "(%d bytes, decompressed from gzip)" *)
| DecompressFailed.  (* "(%d bytes, gzip decompression failed)" *)

Record BodyOut : Type := mkBodyOut {
  shown : list byte;   (* the [%s] argument *)
  count : Z;           (* the [%d] argument *)
  note : BodyNote
}.

Record Endpoint : Type := mkEndpoint {
  ip : string;
  port : string;
  fqdn : string        (* [""]: no name is printed *)
}.

Record RequestOut : Type := mkRequestOut {
  req_src : Endpoint;
  req_dst : Endpoint;
  req_method : string;
  req_url : string;
  req_proto : string;
  req_host : string;
  req_headers : http.Header;
  req_length : option Z;     (* the line "[Content-Length: %d]", if printed *)
  req_body : option BodyOut
}.

Record ResponseOut : Type := mkResponseOut {
  resp_src : Endpoint;
  resp_dst : Endpoint;
  resp_status : string;
  resp_proto : string;
  resp_headers : http.Header;
  resp_body : option BodyOut
}.

Inductive Output : Type :=
| HTTPRequest (o : RequestOut)
| HTTPResponse (o : ResponseOut).

Definition bodyOf (o : Output) : option BodyOut :=
  match o with
  | HTTPRequest r => req_body r
  | HTTPResponse r => resp_body r
  end.

Definition isResponse (o : Output) : bool :=
  match o with
  | HTTPRequest _ => false
  | HTTPResponse _ => true
  end.

(** [gopacket.Flow]: the two endpoints, each as its [String()] (for a TCP
    port the decimal number, for an address its usual text). *)
Record Flow : Type := mkFlow { Src : string; Dst : string }.

(** [1024*1024], the length of the body buffer. *)
Definition maxBody : Z := 1024 * 1024.

(* ===================================================================== *)
(** ** Package [main] ([cmd/pcap-analyzer/main.go]) *)
(* ===================================================================== *)

Module main.

(** A stream while [run] works on it.  The assembler of
    [gopacket/reassembly] makes one stream for a TCP connection, with the
    flows of the first packet it sees of it, and hands the data of both
    directions to that stream.  [r] is the [bufio.Reader] together with the
    [bytes.Buffer] under it (before [bufio.NewReader] its buffer is empty).
    [arriving] holds the data the assembler has yet to deliver to this
    stream with [ReassembledSG], of either direction, in the order of
    delivery. *)
Record HTTPStream : Type := mkHTTPStream {
  net : Flow;
  transport : Flow;
  r : bufio.Reader;
  arriving : list (list byte)
}.

Definition withReader (h : HTTPStream) (b : bufio.Reader) : HTTPStream :=
  {| net := net h; transport := transport h; r := b; arriving := arriving h |}.

(** [h.r.Buffer.Len()] *)
Definition Buffer_Len (h : HTTPStream) : Z := len (bufio.rd (r h)).

(** [data := sg.Fetch(length); t.Buffer.Write(data)].  The direction of
    the data ([sg.Info()]) is not asked for. *)
Definition ReassembledSG (data : list byte) (h : HTTPStream) : HTTPStream :=
  {| net := net h; transport := transport h;
     r := {| bufio.rd := bufio.rd (r h) ++ data; bufio.buf := bufio.buf (r h) |};
     arriving := arriving h |}.

(** [time.Sleep]: the assembler goroutine runs meanwhile and delivers the
    next segment, if one is left.  Segments are arbitrary chunks of the
    data of the connection and may be empty, so any timing of deliveries
    relative to the pauses of [run] is some value of [arriving]. *)
Definition Sleep (h : HTTPStream) : HTTPStream :=
  match arriving h with
  | [] => h
  | data :: rest =>
      ReassembledSG data
        {| net := net h; transport := transport h; r := r h; arriving := rest |}
  end.

(** [for i := 0; i < 100; i++ { if Len() > 0 { break }; Sleep }],
    [i] counting the rounds left. *)
Fixpoint waitForData (i : nat) (h : HTTPStream) : HTTPStream :=
  match i with
  | O => h
  | S i' => if (0 <? Buffer_Len h)%Z then h else waitForData i' (Sleep h)
  end.

(** [for i := 0; i < 10; i++ { cur := Len();
      if cur == prevLen && cur > 100 { break }; prevLen = cur; Sleep }] *)
Fixpoint waitForMore (i : nat) (prevLen : Z) (h : HTTPStream) : HTTPStream :=
  match i with
  | O => h
  | S i' =>
      let currentLen := Buffer_Len h in
      if (currentLen =? prevLen)%Z && (100 <? currentLen)%Z then h
      else waitForMore i' currentLen (Sleep h)
  end.

(** [b[0] == 0x16 && b[1] == 0x03] on a slice of at least two bytes. *)
Definition isTLSRecord (b : list byte) : bool :=
  match b with
  | b0 :: b1 :: _ => Byte.eqb b0 x16 && Byte.eqb b1 x03
  | _ => false
  end.

Definition isTLSPort (p : string) : bool :=
  String.eqb p "443" || String.eqb p "8443".

(** The check before the reader is created: on a TLS port, with three
    bytes or more in the buffer, a TLS record header ends [run]. *)
Definition tlsOnPort (h : HTTPStream) : bool :=
  let dstPort := Dst (transport h) in
  let srcPort := Src (transport h) in
  (isTLSPort dstPort || isTLSPort srcPort)
  && (3 <=? Buffer_Len h)%Z
  && isTLSRecord (take 3 (bufio.rd (r h))).

(** The URL printed for a request. *)
Definition fullURL (dstPort dstIP dstFQDN : string) (Host : string)
    (u : http.URL) : string :=
  let protocol := if isTLSPort dstPort then "https" else "http" in
  let hostname := Host in
  let hostname :=
    if String.eqb hostname ""
    then (if negb (String.eqb dstFQDN "") then dstFQDN else dstIP)
    else hostname in
  let hostname :=
    if (String.eqb protocol "http" && negb (String.eqb dstPort "80"))
       || (String.eqb protocol "https" && negb (String.eqb dstPort "443"))
    then (if negb (strings.Contains hostname ":")
          then hostname +:+ ":" +:+ dstPort else hostname)
    else hostname in
  let fullURL := protocol +:+ "://" +:+ hostname +:+ http.Path u in
  if negb (String.eqb (http.RawQuery u) "")
  then fullURL +:+ "?" +:+ http.RawQuery u
  else fullURL.

(** [srcFQDN := ""; if fqdn, ok := dnsCache.Get(ip); ok { srcFQDN = fqdn }] *)
Definition cachedFQDN (dnsCache : dns.Cache) (ip : string) : string :=
  match dns.Get dnsCache ip with
  | (fqdn, true) => fqdn
  | (_, false) => ""
  end.

Section WithLib.
Context {B : Type} `{L : http.Lib B}.

(** [decompressGzip] *)
Definition decompressGzip (data : list byte) : option (list byte) :=
  http.gunzip data.

(** The body block shared by the two printers: one [Read] into a buffer
    of [1024*1024] bytes, the report when [n > 0], then [Close]. *)
Definition printBody (body : option B) (contentEncoding : string)
    (b : bufio.Reader) : option BodyOut * bufio.Reader :=
  match body with
  | None => (None, b)
  | Some bd =>
      let '(bodyData, bd', b1) := http.Read bd maxBody b in
      let n := len bodyData in
      let out :=
        if (0 <? n)%Z then
          if String.eqb contentEncoding "gzip" then
            match decompressGzip bodyData with
            | Some decompressed =>
                Some (mkBodyOut decompressed (len decompressed) Decompressed)
            | None => Some (mkBodyOut bodyData n DecompressFailed)
            end
          else Some (mkBodyOut bodyData n Plain)
        else None in
      (out, http.Close bd' b1)
  end.

Definition printHTTPRequest (h : HTTPStream) (req : http.Request B)
    (dnsCache : dns.Cache) : Output * HTTPStream :=
  let srcIP := Src (net h) in
  let dstIP := Dst (net h) in
  let srcPort := Src (transport h) in
  let dstPort := Dst (transport h) in
  let srcFQDN := cachedFQDN dnsCache srcIP in
  let dstFQDN := cachedFQDN dnsCache dstIP in
  let url := fullURL dstPort dstIP dstFQDN (http.Host req) (http.URL_ req) in
  let '(body, b') :=
    printBody (http.Body req)
              (http.Header_Get (http.Header_ req) "Content-Encoding") (r h) in
  (HTTPRequest
     {| req_src := mkEndpoint srcIP srcPort srcFQDN;
        req_dst := mkEndpoint dstIP dstPort dstFQDN;
        req_method := http.Method req;
        req_url := url;
        req_proto := http.Proto req;
        req_host := http.Host req;
        req_headers := http.Header_ req;
        req_length := if (0 <? http.ContentLength req)%Z
                      then Some (http.ContentLength req) else None;
        req_body := body |},
   withReader h b').

Definition printHTTPResponse (h : HTTPStream) (resp : http.Response B)
    (dnsCache : dns.Cache) : Output * HTTPStream :=
  let srcIP := Src (net h) in
  let dstIP := Dst (net h) in
  let srcPort := Src (transport h) in
  let dstPort := Dst (transport h) in
  let srcFQDN := cachedFQDN dnsCache srcIP in
  let dstFQDN := cachedFQDN dnsCache dstIP in
  let '(body, b') :=
    printBody (http.RBody resp)
              (http.Header_Get (http.RHeader resp) "Content-Encoding") (r h) in
  (HTTPResponse
     {| resp_src := mkEndpoint srcIP srcPort srcFQDN;
        resp_dst := mkEndpoint dstIP dstPort dstFQDN;
        resp_status := http.Status resp;
        resp_proto := http.RProto resp;
        resp_headers := http.RHeader resp;
        resp_body := body |},
   withReader h b').

(** One round of the [for] loop of [run]. *)
Inductive Round : Type :=
| Return                                        (* [return] *)
| Continue (h : HTTPStream) (out : list Output) (* next round *).

Definition round (h : HTTPStream) (dnsCache : dns.Cache) : Round :=
  let '(peek, err, b) := bufio.Peek 8 (r h) in
  let h := withReader h b in
  if err then Return
  else
    let peekStr := string_of_list_byte peek in
    if (3 <=? len peek)%Z && isTLSRecord peek then Return
    else if strings.HasPrefix peekStr "HTTP/" then
      match http.ReadResponse (r h) with
      | (None, b') => Continue (Sleep (withReader h b')) []
      | (Some resp, b') =>
          let '(o, h') := printHTTPResponse (withReader h b') resp dnsCache in
          Continue h' [o]
      end
    else
      match http.ReadRequest (r h) with
      | (None, b') =>
          let h' := Sleep (withReader h b') in
          if (bufio.Buffered (r h') <? Buffer_Len h')%Z
          then Continue h' []
          else Return
      | (Some req, b') =>
          let '(o, h') := printHTTPRequest (withReader h b') req dnsCache in
          Continue h' [o]
      end.

(** The loop, [fuel] bounding the number of rounds: [None] when the
    bound is reached before the loop returns.  Every round reads the cache
    as [dnsCache] (see [run] below). *)
Fixpoint loop (fuel : nat) (h : HTTPStream) (dnsCache : dns.Cache)
  : option (list Output) :=
  match fuel with
  | O => None
  | S fuel' =>
      match round h dnsCache with
      | Return => Some []
      | Continue h' out =>
          match loop fuel' h' dnsCache with
          | Some outs => Some (out ++ outs)
          | None => None
          end
      end
  end.

(** [run]: everything printed for the stream.  [dnsCache] is the content of
    the cache as the printers find it.  The cache is shared with the packet
    loop, which may record answers while [run] pauses; a statement that
    depends on the names printed holds for a run during which the content
    read stays [dnsCache]. *)
Definition run (fuel : nat) (h : HTTPStream) (dnsCache : dns.Cache)
  : option (list Output) :=
  let h := waitForData 100 h in
  if (Buffer_Len h =? 0)%Z then Some []
  else
    let h := waitForMore 10 0 h in
    if tlsOnPort h then Some []
    else loop fuel h dnsCache.

End WithLib.

(** A stream as [tcpStreamFactory.New] makes it, with the segments the
    assembler will deliver to it. *)
Definition New (net transport : Flow) (segments : list (list byte)) : HTTPStream :=
  {| net := net; transport := transport;
     r := bufio.NewReader []; arriving := segments |}.

(** All the bytes of the stream, read or not, delivered or not: those of
    the connection, both directions together, in the order of delivery. *)
Definition stream (h : HTTPStream) : list byte :=
  bufio.buf (r h) ++ bufio.rd (r h) ++ concat (arriving h).

(** [reassembly.TCPFlowDirection], and what [ReassembledSG] is called
    with: a [ScatterGather] that knows its direction ([sg.Info()]) and holds
    the bytes ([sg.Fetch(length)]). *)
Inductive TCPFlowDirection : Type :=
| TCPDirClientToServer
| TCPDirServerToClient.

Record ScatterGather : Type := mkScatterGather {
  Info : TCPFlowDirection;
  Fetch : list byte
}.

(** The stream of a connection: made by [New] at its first packet, then
    given the data of both directions, each by one call of
    [ReassembledSG]. *)
Definition connection (net transport : Flow) (sgs : list ScatterGather)
  : HTTPStream :=
  New net transport (map Fetch sgs).

Definition sameDirection (d d' : TCPFlowDirection) : bool :=
  match d, d' with
  | TCPDirClientToServer, TCPDirClientToServer => true
  | TCPDirServerToClient, TCPDirServerToClient => true
  | _, _ => false
  end.

(** The bytes that travelled in one direction of the connection. *)
Definition directionBytes (d : TCPFlowDirection) (sgs : list ScatterGather)
  : list byte :=
  concat (map Fetch (List.filter (fun sg => sameDirection d (Info sg)) sgs)).

End main.

(** *** The packet loop of [main] *)

(** gopacket's [layers.TCPPort], a [uint16], and its [String()]: the
    number, followed by the service name in parentheses when the library's
    table of well-known ports has one, as in ["22(ssh)"] and ["80(http)"].
    (The [Endpoint] of a transport [Flow], which [run] and the printers use,
    is rendered as the bare number.)  The table below holds the entries for
    the ports that the filter of [main] puts in its "not HTTP" case, and for
    80 and 443; the filter answers [true] for every other port with or
    without a name, so no other entry changes what it does. *)
Module layers.

Definition TCPPortNames (p : N) : option string :=
  match p with
  | 22 => Some "ssh"
  | 23 => Some "telnet"
  | 25 => Some "smtp"
  | 53 => Some "domain"
  | 80 => Some "http"
  | 110 => Some "pop3"
  | 143 => Some "imap"
  | 443 => Some "https"
  | 993 => Some "imaps"
  | 995 => Some "pop3s"
  | _ => None
  end%N.

(** [strconv.Itoa] *)
Definition Itoa (p : N) : string := NilEmpty.string_of_uint (N.to_uint p).

Definition TCPPort_String (p : N) : string :=
  match TCPPortNames p with
  | Some name => Itoa p +:+ "(" +:+ name +:+ ")"
  | None => Itoa p
  end.

End layers.

Module capture.

(** [layers.TCP] as the loop reads it: the two ports and the payload. *)
Record TCP : Type := mkTCP {
  SrcPort : N;
  DstPort : N;
  Payload : list byte
}.

Record Packet : Type := mkPacket {
  NetworkFlow : Flow;
  DNSLayer : option dns.Msg;
  TCPLayer : option TCP
}.

Definition isHTTPPort (port : string) : bool :=
  if existsb (String.eqb port)
       ["80"; "8080"; "8000"; "8888"; "3000"; "5000"; "9000"]
  then true    (* common HTTP ports *)
  else if existsb (String.eqb port) ["443"; "8443"]
  then true    (* HTTPS ports *)
  else if existsb (String.eqb port)
            ["22"; "23"; "25"; "53"; "110"; "143"; "993"; "995"]
  then false   (* definitely not HTTP *)
  else true.   (* unknown ports *)

(** The state of the loop: the cache, what the DNS parser printed, and
    the segments handed to [assembler.AssembleWithContext], in order.
    Streams exist only for flows of which a segment was handed over: the
    assembler calls the stream factory from there. *)
Record Loop : Type := mkLoop {
  dnsCache : dns.Cache;
  printed : list dns.Printed;
  assembled : list (Flow * TCP)
}.

Definition packet (enableDNS : bool) (st : Loop) (p : Packet) : Loop :=
  let '(out, c) :=
    if enableDNS then dns.ParsePacket (DNSLayer p) (dnsCache st)
    else ([], dnsCache st) in
  let asm :=
    match TCPLayer p with
    | Some tcpLayer =>
        let srcPort := layers.TCPPort_String (SrcPort tcpLayer) in
        let dstPort := layers.TCPPort_String (DstPort tcpLayer) in
        if isHTTPPort srcPort || isHTTPPort dstPort
        then assembled st ++ [(NetworkFlow p, tcpLayer)]
        else assembled st
    | None => assembled st
    end in
  {| dnsCache := c; printed := printed st ++ out; assembled := asm |}.

Definition packets (enableDNS : bool) (ps : list Packet) : Loop :=
  foldl (packet enableDNS)
        {| dnsCache := dns.NewCache; printed := []; assembled := [] |} ps.

End capture.

(* ===================================================================== *)
(** ** Package [http] of the repository ([internal/http/stream.go]) *)
(* ===================================================================== *)

Module httpstream.

Record Stream : Type := mkStream {
  net : Flow;
  transport : Flow;
  r : bufio.Reader;
  isClient : bool
}.

Definition withReader (s : Stream) (b : bufio.Reader) : Stream :=
  {| net := net s; transport := transport s; r := b; isClient := isClient s |}.

(** The URL printed for a request (the revision that derives one). *)
Definition fullURL (dstPort dstIP dstFQDN : string) (Host : string)
    (u : http.URL) : string :=
  let protocol := if main.isTLSPort dstPort then "https" else "http" in
  let hostname := Host in
  let hostname :=
    if String.eqb hostname ""
    then (if negb (String.eqb dstFQDN "") then dstFQDN else dstIP)
    else hostname in
  let hostname :=
    if (String.eqb protocol "http" && String.eqb dstPort "80")
       || (String.eqb protocol "https" && String.eqb dstPort "443")
    then hostname
    else (if negb (strings.Contains hostname ":")
          then hostname +:+ ":" +:+ dstPort else hostname) in
  let fullURL := protocol +:+ "://" +:+ hostname +:+ http.Path u in
  if negb (String.eqb (http.RawQuery u) "")
  then fullURL +:+ "?" +:+ http.RawQuery u
  else fullURL.

Section WithLib.
Context {B : Type} `{L : http.Lib B}.
Variable R : dns.Resolver.

(** One [Read] into [1024*1024] bytes, the report when [n > 0], [Close]. *)
Definition printBody (body : option B) (b : bufio.Reader)
  : option BodyOut * bufio.Reader :=
  match body with
  | None => (None, b)
  | Some bd =>
      let '(bodyData, bd', b1) := http.Read bd maxBody b in
      let n := len bodyData in
      ((if (0 <? n)%Z then Some (mkBodyOut bodyData n Plain) else None),
       http.Close bd' b1)
  end.

Definition printHTTPRequest (s : Stream) (req : http.Request B)
    (w : dns.World) : Output * Stream * dns.World :=
  let srcIP := Src (net s) in
  let dstIP := Dst (net s) in
  let srcPort := Src (transport s) in
  let dstPort := Dst (transport s) in
  let '(srcFQDN, w) := dns.GetWithRDNS R srcIP w in
  let '(dstFQDN, w) := dns.GetWithRDNS R dstIP w in
  let url := fullURL dstPort dstIP dstFQDN (http.Host req) (http.URL_ req) in
  let '(body, b') := printBody (http.Body req) (r s) in
  (HTTPRequest
     {| req_src := mkEndpoint srcIP srcPort srcFQDN;
        req_dst := mkEndpoint dstIP dstPort dstFQDN;
        req_method := http.Method req;
        req_url := url;
        req_proto := http.Proto req;
        req_host := http.Host req;
        req_headers := http.Header_ req;
        req_length := None;
        req_body := body |},
   withReader s b', w).

Definition printHTTPResponse (s : Stream) (resp : http.Response B)
    (w : dns.World) : Output * Stream * dns.World :=
  let srcIP := Src (net s) in
  let dstIP := Dst (net s) in
  let srcPort := Src (transport s) in
  let dstPort := Dst (transport s) in
  let '(srcFQDN, w) := dns.GetWithRDNS R srcIP w in
  let '(dstFQDN, w) := dns.GetWithRDNS R dstIP w in
  let '(body, b') := printBody (http.RBody resp) (r s) in
  (HTTPResponse
     {| resp_src := mkEndpoint srcIP srcPort srcFQDN;
        resp_dst := mkEndpoint dstIP dstPort dstFQDN;
        resp_status := http.Status resp;
        resp_proto := http.RProto resp;
        resp_headers := http.RHeader resp;
        resp_body := body |},
   withReader s b', w).

(** [Run]: the role is the field [isClient]; any read error returns. *)
Fixpoint Run (fuel : nat) (s : Stream) (w : dns.World)
  : option (list Output * dns.World) :=
  match fuel with
  | O => None
  | S fuel' =>
      if isClient s then
        match http.ReadRequest (r s) with
        | (None, _) => Some ([], w)
        | (Some req, b') =>
            let '(o, s', w') := printHTTPRequest (withReader s b') req w in
            match Run fuel' s' w' with
            | Some (outs, w'') => Some (o :: outs, w'')
            | None => None
            end
        end
      else
        match http.ReadResponse (r s) with
        | (None, _) => Some ([], w)
        | (Some resp, b') =>
            let '(o, s', w') := printHTTPResponse (withReader s b') resp w in
            match Run fuel' s' w' with
            | Some (outs, w'') => Some (o :: outs, w'')
            | None => None
            end
        end
  end.

End WithLib.

End httpstream.

(* ===================================================================== *)
(** ** A reference instance of the library interface *)
(* ===================================================================== *)

(** The general statements below hold for every instance of [http.Lib].
    To run the analyzer on concrete streams an instance is needed; this one
    follows Go's [net/http], [net/textproto] and [bufio] on plain HTTP/1.1
    messages: a start line, header lines [Name: value], a body framed by
    [Content-Length] (requests and responses), no body for a request
    without [Content-Length], and the rest of the stream as the body of a
    response without [Content-Length] (status other than 1xx, 204, 304).
    What it does not cover it rejects with an error, where the library
    would go on: protocol versions other than HTTP/1.1, request targets
    other than the origin form [/path?query] and the absolute form
    [http://host/path?query] with a host of letters, digits, [.] and [-],
    targets that hold escapes, continuation lines, the headers
    [Transfer-Encoding], [Connection], [Trailer] and [Pragma], repeated
    [Host] or [Content-Length], header names with bytes other than
    letters, digits and [-]. *)

Module gohttp.

Definition LF : byte := x0a.
Definition CR : byte := x0d.
Definition SP : byte := x20.
Definition TAB : byte := x09.

Definition code (c : byte) : Z := Z.of_nat (Byte.to_nat c).
Definition between (lo hi : Z) (c : byte) : bool :=
  (lo <=? code c)%Z && (code c <=? hi)%Z.
Definition isDigit : byte -> bool := between 48 57.
Definition isUpper : byte -> bool := between 65 90.
Definition isLower : byte -> bool := between 97 122.
Definition isLetter (c : byte) : bool := isUpper c || isLower c.
Definition isBlank (c : byte) : bool := Byte.eqb c SP || Byte.eqb c TAB.

Definition ofCode (z : Z) (default : byte) : byte :=
  match Byte.of_nat (Z.to_nat z) with Some c => c | None => default end.
Definition toUpper (c : byte) : byte :=
  if isLower c then ofCode (code c - 32) c else c.
Definition toLower (c : byte) : byte :=
  if isUpper c then ofCode (code c + 32) c else c.

(** [strings.Cut] / [bytes.Cut] at the first [sep]. *)
Fixpoint cut (sep : byte) (l : list byte) : option (list byte * list byte) :=
  match l with
  | [] => None
  | c :: l' =>
      if Byte.eqb c sep then Some ([], l')
      else match cut sep l' with
           | Some (before, after) => Some (c :: before, after)
           | None => None
           end
  end.

Fixpoint trimLeft (l : list byte) : list byte :=
  match l with
  | c :: l' => if isBlank c then trimLeft l' else l
  | [] => []
  end.

Definition trim (l : list byte) : list byte :=
  rev (trimLeft (rev (trimLeft l))).

(** *** [bufio.Reader.ReadLine] under [textproto.Reader.ReadLine] *)

Definition rstripCR (l : list byte) : list byte :=
  match rev l with
  | c :: l' => if Byte.eqb c CR then rev l' else l
  | [] => l
  end.

Fixpoint readLineSlice (fuel : nat) (acc : list byte) (b : bufio.Reader)
  : option (list byte) * bufio.Reader :=
  match fuel with
  | O => (None, b)
  | S fuel' =>
      match cut LF (bufio.buf b) with
      | Some (line, rest) =>
          (Some (acc ++ rstripCR line), {| bufio.rd := bufio.rd b; bufio.buf := rest |})
      | None =>
          if (bufio.defaultBufSize <=? List.length (bufio.buf b))%nat then
            (* the buffer is full: a fragment of a long line *)
            match rev (bufio.buf b) with
            | c :: l' =>
                if Byte.eqb c CR
                then readLineSlice fuel' (acc ++ rev l')
                       {| bufio.rd := bufio.rd b; bufio.buf := [CR] |}
                else readLineSlice fuel' (acc ++ bufio.buf b)
                       {| bufio.rd := bufio.rd b; bufio.buf := [] |}
            | [] => (None, b)
            end
          else
            match bufio.rd b with
            | [] =>
                (* end of the stream: a last line without its line end *)
                match bufio.buf b with
                | [] => (None, b)
                | _ => (Some (acc ++ bufio.buf b),
                        {| bufio.rd := []; bufio.buf := [] |})
                end
            | _ => readLineSlice fuel' acc (bufio.fill b)
            end
      end
  end.

Definition ReadLine (b : bufio.Reader) : option (list byte) * bufio.Reader :=
  readLineSlice (2 * List.length (bufio.rd b) + 3) [] b.

(** [ReadByte] fills an empty buffer before it looks at the next byte. *)
Definition ensure1 (b : bufio.Reader) : bufio.Reader :=
  match bufio.buf b with
  | [] => bufio.fill b
  | _ => b
  end.

Definition nextIsBlank (b : bufio.Reader) : bool :=
  match bufio.buf b with
  | c :: _ => isBlank c
  | [] => false
  end.

(** *** [textproto.Reader.ReadMIMEHeader] *)

Fixpoint canonical (upper : bool) (k : list byte) : option (list byte) :=
  match k with
  | [] => Some []
  | c :: k' =>
      if isLetter c || isDigit c || Byte.eqb c "-"%byte then
        match canonical (Byte.eqb c "-"%byte) k' with
        | Some r => Some ((if upper then toUpper c else toLower c) :: r)
        | None => None
        end
      else None
  end.

Definition canonicalMIMEHeaderKey (k : list byte) : option string :=
  match k with
  | [] => None
  | _ => option_map string_of_list_byte (canonical true k)
  end.

Definition validHeaderValueByte (c : byte) : bool :=
  Byte.eqb c TAB || between 32 126 c || between 128 255 c.

Definition unsupported : list string :=
  ["Transfer-Encoding"; "Connection"; "Trailer"; "Pragma"].

Definition addHeader (h : http.Header) (key value : string) : http.Header :=
  <[key := default [] (h !! key) ++ [value]]> h.

Fixpoint readHeaderLines (fuel : nat) (h : http.Header) (b : bufio.Reader)
  : option http.Header * bufio.Reader :=
  match fuel with
  | O => (None, b)
  | S fuel' =>
      match ReadLine b with
      | (None, b1) => (None, b1)
      | (Some [], b1) => (Some h, b1)
      | (Some line, b1) =>
          let b1 := ensure1 b1 in
          if nextIsBlank b1 then (None, b1)
          else
            match cut ":"%byte (trim line) with
            | None => (None, b1)
            | Some (k, v) =>
                match canonicalMIMEHeaderKey k with
                | None => (None, b1)
                | Some key =>
                    if forallb validHeaderValueByte v
                       && negb (existsb (String.eqb key) unsupported)
                    then readHeaderLines fuel'
                           (addHeader h key (string_of_list_byte (trimLeft v))) b1
                    else (None, b1)
                end
            end
      end
  end.

Definition ReadMIMEHeader (b : bufio.Reader) : option http.Header * bufio.Reader :=
  let b := ensure1 b in
  if nextIsBlank b then (None, snd (ReadLine b))
  else readHeaderLines (S (List.length (bufio.buf b) + List.length (bufio.rd b))) ∅ b.

(** *** Bodies *)

Inductive body : Type :=
| NoBody
| Limited (remaining : Z)   (* [io.LimitReader(r, n)], drained on [Close] *)
| UntilEOF.                 (* no length: the rest of the stream, not drained *)

(** [bufio.Reader.Read(p)] with [len(p) = k]: the buffered bytes if there
    are any; else a read of the source, into [p] when it is as long as
    the internal buffer, into the buffer otherwise. *)
Definition bufioRead (k : Z) (b : bufio.Reader) : list byte * bufio.Reader :=
  if (k <=? 0)%Z then ([], b)
  else
    match bufio.buf b with
    | [] =>
        if (Z.of_nat bufio.defaultBufSize <=? k)%Z then
          let n := Z.to_nat (Z.min k (len (bufio.rd b))) in
          (take n (bufio.rd b), {| bufio.rd := drop n (bufio.rd b); bufio.buf := [] |})
        else
          let b' := bufio.fill b in
          let n := Z.to_nat (Z.min k (len (bufio.buf b'))) in
          (take n (bufio.buf b'),
           {| bufio.rd := bufio.rd b'; bufio.buf := drop n (bufio.buf b') |})
    | _ =>
        let n := Z.to_nat (Z.min k (len (bufio.buf b))) in
        (take n (bufio.buf b),
         {| bufio.rd := bufio.rd b; bufio.buf := drop n (bufio.buf b) |})
    end.

Definition Read (bd : body) (k : Z) (b : bufio.Reader)
  : list byte * body * bufio.Reader :=
  match bd with
  | NoBody => ([], NoBody, b)
  | Limited n =>
      if (n <=? 0)%Z then ([], bd, b)
      else
        let '(data, b') := bufioRead (Z.min k n) b in
        (data, Limited (n - len data), b')
  | UntilEOF =>
      let '(data, b') := bufioRead k b in (data, UntilEOF, b')
  end.

(** [io.Copy(io.Discard, body)]: reads of 8192 bytes until none is left
    or a read comes back empty. *)
Fixpoint drain (fuel : nat) (n : Z) (b : bufio.Reader) : bufio.Reader :=
  match fuel with
  | O => b
  | S fuel' =>
      if (n <=? 0)%Z then b
      else
        let '(data, b') := bufioRead (Z.min 8192 n) b in
        match data with
        | [] => b'
        | _ => drain fuel' (n - len data) b'
        end
  end.

Definition Close (bd : body) (b : bufio.Reader) : bufio.Reader :=
  match bd with
  | NoBody => b
  | Limited n => drain (S (List.length (bufio.buf b) + List.length (bufio.rd b))) n b
  | UntilEOF => b
  end.

(** *** Start lines and framing *)

Fixpoint decimal (acc : Z) (l : list byte) : option Z :=
  match l with
  | [] => Some acc
  | c :: l' => if isDigit c then decimal (10 * acc + (code c - 48)) l' else None
  end.

(** [Content-Length]: absent, or one value of decimal digits below 2^63. *)
Definition contentLength (h : http.Header) : option (option Z) :=
  match h !! "Content-Length" with
  | None => Some None
  | Some [v] =>
      match trim (list_byte_of_string v) with
      | [] => None
      | ds => match decimal 0 ds with
              | Some n => if (n <? 2 ^ 63)%Z then Some (Some n) else None
              | None => None
              end
      end
  | Some _ => None
  end.

Definition isTokenByte (c : byte) : bool :=
  isLetter c || isDigit c
  || existsb (Byte.eqb c) (list_byte_of_string "!#$%&'*+-.^_`|~").

Definition validMethod (m : list byte) : bool :=
  match m with [] => false | _ => forallb isTokenByte m end.

Definition originForm (t : list byte) : bool :=
  match t with
  | c :: _ =>
      Byte.eqb c "/"%byte
      && forallb (fun c => between 33 126 c && negb (Byte.eqb c "%"%byte)) t
  | [] => false
  end.

Definition pathAndQuery (t : list byte) : http.URL :=
  match cut "?"%byte t with
  | Some (path, query) =>
      http.mkURL (string_of_list_byte path) (string_of_list_byte query)
  | None => http.mkURL (string_of_list_byte t) ""
  end.

Definition hostByte (c : byte) : bool :=
  isLetter c || isDigit c || Byte.eqb c "."%byte || Byte.eqb c "-"%byte.

Fixpoint splitHost (t : list byte) : list byte * list byte :=
  match t with
  | c :: t' =>
      if hostByte c then let '(host, rest) := splitHost t' in (c :: host, rest)
      else ([], t)
  | [] => ([], [])
  end.

(** The absolute form [http://host/path?query]: the host and the target
    from the first [/] after it. *)
Definition absoluteForm (t : list byte) : option (list byte * list byte) :=
  match t with
  | "h"%byte :: "t"%byte :: "t"%byte :: "p"%byte
    :: ":"%byte :: "/"%byte :: "/"%byte :: t' =>
      match splitHost t' with
      | ([], _) => None
      | (host, rest) => if originForm rest then Some (host, rest) else None
      end
  | _ => None
  end.

(** [url.ParseRequestURI]: the [Host] of the URL ([""] for a target in
    origin form) and its [Path] and [RawQuery]. *)
Definition parseRequestURI (t : list byte) : option (string * http.URL) :=
  if originForm t then Some ("", pathAndQuery t)
  else
    match absoluteForm t with
    | Some (host, rest) => Some (string_of_list_byte host, pathAndQuery rest)
    | None => None
    end.

Definition http11 : list byte := list_byte_of_string "HTTP/1.1".

Definition sameBytes (a b : list byte) : bool :=
  String.eqb (string_of_list_byte a) (string_of_list_byte b).

Definition ReadRequest (b : bufio.Reader)
  : option (http.Request body) * bufio.Reader :=
  match ReadLine b with
  | (None, b1) => (None, b1)
  | (Some line, b1) =>
      match cut SP line with
      | None => (None, b1)
      | Some (method, rest) =>
          match cut SP rest with
          | None => (None, b1)
          | Some (requestURI, proto) =>
              if validMethod method && sameBytes proto http11 then
                match parseRequestURI requestURI with
                | None => (None, b1)
                | Some (urlHost, u) =>
                    match ReadMIMEHeader b1 with
                    | (None, b2) => (None, b2)
                    | (Some h, b2) =>
                        match h !! "Host", contentLength h with
                        | Some (_ :: _ :: _), _ => (None, b2)
                        | _, None => (None, b2)
                        | _, Some cl =>
                            let n := default 0%Z cl in
                            (Some (http.mkRequest
                                     (string_of_list_byte method) u
                                     (string_of_list_byte proto)
                                     (delete "Host" h) n
                                     (* [req.Host = req.URL.Host], and the
                                        [Host] header if that is empty *)
                                     (if String.eqb urlHost ""
                                      then http.Header_Get h "Host"
                                      else urlHost)
                                     (Some (if (0 <? n)%Z then Limited n else NoBody))),
                             b2)
                        end
                    end
                end
              else (None, b1)
          end
      end
  end.

Definition noBodyStatus (code : Z) : bool :=
  ((100 <=? code) && (code <? 200))%Z || (code =? 204)%Z || (code =? 304)%Z.

Definition ReadResponse (b : bufio.Reader)
  : option (http.Response body) * bufio.Reader :=
  match ReadLine b with
  | (None, b1) => (None, b1)
  | (Some line, b1) =>
      match cut SP line with
      | None => (None, b1)
      | Some (proto, status) =>
          let status :=
            (fix trimSP (l : list byte) : list byte :=
               match l with
               | c :: l' => if Byte.eqb c SP then trimSP l' else l
               | [] => []
               end) status in
          let statusCode :=
            match cut SP status with Some (c, _) => c | None => status end in
          match (if (List.length statusCode =? 3)%nat
                 then decimal 0 statusCode else None) with
          | None => (None, b1)
          | Some code =>
              if sameBytes proto http11 then
                match ReadMIMEHeader b1 with
                | (None, b2) => (None, b2)
                | (Some h, b2) =>
                    match contentLength h with
                    | None => (None, b2)
                    | Some cl =>
                        let bd :=
                          if noBodyStatus code then NoBody
                          else match cl with
                               | Some n => if (0 <? n)%Z then Limited n else NoBody
                               | None => UntilEOF
                               end in
                        (Some (http.mkResponse
                                 (string_of_list_byte status)
                                 (string_of_list_byte proto) h (Some bd)),
                         b2)
                    end
                end
              else (None, b1)
          end
      end
  end.

End gohttp.

(* ===================================================================== *)
(** ** Instances, projections and concrete inputs *)
(* ===================================================================== *)

(** The instance; it never decompresses ([gunzip] always fails). *)
#[local] Instance reference : http.Lib gohttp.body :=
  {| http.ReadRequest := gohttp.ReadRequest;
     http.ReadResponse := gohttp.ReadResponse;
     http.Read := gohttp.Read;
     http.Close := gohttp.Close;
     http.gunzip := fun _ => None |}.

(** The reference instance with a gzip reader that answers at one file. *)
Definition gunzipAt (file out data : list byte) : option (list byte) :=
  if gohttp.sameBytes data file then Some out else None.

Definition withGunzip (file out : list byte) : http.Lib gohttp.body :=
  {| http.ReadRequest := gohttp.ReadRequest;
     http.ReadResponse := gohttp.ReadResponse;
     http.Read := gohttp.Read;
     http.Close := gohttp.Close;
     http.gunzip := gunzipAt file out |}.

(** *** Projections of the report *)

Definition urlOf (o : Output) : string :=
  match o with
  | HTTPRequest r => req_url r
  | HTTPResponse _ => ""
  end.

Definition statusOf (o : Output) : string :=
  match o with
  | HTTPRequest _ => ""
  | HTTPResponse r => resp_status r
  end.

Definition headersOf (o : Output) : http.Header :=
  match o with
  | HTTPRequest r => req_headers r
  | HTTPResponse r => resp_headers r
  end.

(** *** The URL of a request, in the words of the design document *)

Module urlspec.

Definition scheme (dstPort : string) : string :=
  if String.eqb dstPort "443" || String.eqb dstPort "8443"
  then "https" else "http".

Definition authority (Host dstFQDN dstIP : string) : string :=
  if negb (String.eqb Host "") then Host
  else if negb (String.eqb dstFQDN "") then dstFQDN
  else dstIP.

Definition canonicalPair (scheme dstPort : string) : bool :=
  (String.eqb scheme "http" && String.eqb dstPort "80")
  || (String.eqb scheme "https" && String.eqb dstPort "443").

Definition portAppended (dstPort Host dstFQDN dstIP : string) : bool :=
  negb (canonicalPair (scheme dstPort) dstPort)
  && negb (strings.Contains (authority Host dstFQDN dstIP) ":").

Definition target (u : http.URL) : string :=
  if String.eqb (http.RawQuery u) "" then http.Path u
  else http.Path u +:+ "?" +:+ http.RawQuery u.

Definition url (dstPort dstIP dstFQDN Host : string) (u : http.URL) : string :=
  scheme dstPort +:+ "://"
  +:+ (if portAppended dstPort Host dstFQDN dstIP
       then authority Host dstFQDN dstIP +:+ ":" +:+ dstPort
       else authority Host dstFQDN dstIP)
  +:+ target u.



End urlspec.

(** *** The port filter *)

(** The ports the filter calls "definitely not HTTP". *)
Definition notHTTP : list string :=
  ["22"; "23"; "25"; "53"; "110"; "143"; "993"; "995"].

(** [f] holds of the [n] numbers from [p] on. *)
Fixpoint allFrom (n : nat) (p : N) (f : N -> bool) : bool :=
  match n with
  | O => true
  | S n' => f p && allFrom n' (N.succ p) f
  end.

(** The TCP segments of a capture, in order. *)
Definition tcpSegments (ps : list capture.Packet) : list (Flow * capture.TCP) :=
  flat_map (fun p => match capture.TCPLayer p with
                     | Some tcpLayer => [(capture.NetworkFlow p, tcpLayer)]
                     | None => []
                     end) ps.

Definition uint16 (p : N) : Prop := (p < 65536)%N.

(** *** Printed bodies *)

(** What holds of a printed body: the count is its length; unless it was
    decompressed it is at most [1024*1024] bytes long; if it was, it is
    the output of [decompressGzip] on at most that many bytes. *)
Definition withinCap {B : Type} `{L : http.Lib B} (bo : BodyOut) : Prop :=
  count bo = len (shown bo)
  /\ (note bo <> Decompressed -> (len (shown bo) <= maxBody)%Z)
  /\ (note bo = Decompressed ->
      exists data, (len data <= maxBody)%Z
                   /\ main.decompressGzip data = Some (shown bo)).

(** *** Concrete inputs *)

Definition CRLF : string := String (ascii_of_nat 13) (String (ascii_of_nat 10) "").

Definition bytes (s : string) : list byte := list_byte_of_string s.

(** Two callers that interleave.  The resolver answers the first look-up
    with one name and the second with another. *)
Definition twoAnswers : dns.Resolver :=
  fun k _ => if (k =? 0)%nat then Some ["a.example."] else Some ["b.example."].

Definition emptyWorld : dns.World := dns.mkWorld dns.NewCache [].

(** A capture of two packets: a request sent from port 22 to port 22, and
    the same request sent to port 80. *)
Definition request : list byte :=
  bytes ("GET / HTTP/1.1" +:+ CRLF +:+ "Host: a" +:+ CRLF +:+ CRLF).

Definition sshSegment : capture.TCP := capture.mkTCP 22 22 request.

Definition webSegment : capture.TCP := capture.mkTCP 40000 80 request.

Definition twoPackets : list capture.Packet :=
  [capture.mkPacket (mkFlow "10.0.0.1" "10.0.0.2") None (Some sshSegment);
   capture.mkPacket (mkFlow "10.0.0.1" "10.0.0.3") None (Some webSegment)].

(** The stream of the design document's example: 0x16 0x03 0x01 and more,
    to destination port 443; and the same bytes to port 8080. *)
Definition tlsHello : list byte :=
  [x16; x03; x01; x00; x2e; x01; x00; x00; x2a; x03; x03].

Definition tlsStream (dstPort : string) : main.HTTPStream :=
  main.New (mkFlow "10.0.0.1" "10.0.0.2") (mkFlow "40000" dstPort) [tlsHello].

Definition clientToServer : Flow := mkFlow "10.0.0.1" "10.0.0.2".
Definition serverToClient : Flow := mkFlow "10.0.0.2" "10.0.0.1".

(** The request of the design document, to port 80. *)
Definition exampleRequest : main.HTTPStream :=
  main.New clientToServer (mkFlow "40000" "80")
    [bytes ("GET /a?x=1 HTTP/1.1" +:+ CRLF +:+ "Host: example.com" +:+ CRLF +:+ CRLF)].

(** One direction that carries a request and then a response. *)
Definition mixedDirection : main.HTTPStream :=
  main.New clientToServer (mkFlow "40000" "80")
    [bytes ("GET / HTTP/1.1" +:+ CRLF +:+ "Host: a" +:+ CRLF +:+ CRLF
            +:+ "HTTP/1.1 200 OK" +:+ CRLF +:+ "Content-Length: 2" +:+ CRLF +:+ CRLF
            +:+ "ok")].

(** The reader of [mixedDirection] once the request has been read. *)
Definition atResponse : main.HTTPStream :=
  {| main.net := clientToServer; main.transport := mkFlow "40000" "80";
     main.r := bufio.NewReader
                 (bytes ("HTTP/1.1 200 OK" +:+ CRLF +:+ "Content-Length: 2"
                         +:+ CRLF +:+ CRLF +:+ "ok"));
     main.arriving := [] |}.

(** A malformed status line (no status after the version), then a
    well-formed response. *)
Definition malformedThenResponse : main.HTTPStream :=
  main.New serverToClient (mkFlow "80" "40000")
    [bytes ("HTTP/1.1" +:+ CRLF
            +:+ "HTTP/1.1 200 OK" +:+ CRLF +:+ "Content-Length: 0" +:+ CRLF +:+ CRLF)].

(** A request whose header block is cut off by the end of the stream. *)
Definition unterminatedHeader : main.HTTPStream :=
  {| main.net := clientToServer; main.transport := mkFlow "40000" "80";
     main.r := bufio.NewReader (bytes ("GET / HTTP/1.1" +:+ CRLF +:+ "Host: a"));
     main.arriving := [] |}.


(** A response that announces 2000000 bytes and brings three. *)
Definition announcedTwoMillion : main.HTTPStream :=
  main.New serverToClient (mkFlow "80" "40000")
    [bytes ("HTTP/1.1 200 OK" +:+ CRLF +:+ "Content-Length: 2000000" +:+ CRLF +:+ CRLF
            +:+ "abc")].

(** [gzZeros] is a gzip file of 1051 bytes, [gzip -9] of [1024*1024 + 1]
    zero bytes, and [zeros] is what it decompresses to. *)
Definition gzZeros : list byte :=
  [x1f; x8b; x08; x00; x00; x00; x00; x00; x02; x03; xed; xc1; x31; x01; x00;
   x00; x00; xc2; xa0; xf5; x4f; x6d; x08; x5f; xa0]
  ++ repeat x00 1016
  ++ [x4e; x03; x28; x8b; xa4; xc6; x01; x00; x10; x00].

Definition zeros : list byte := repeat x00 (Z.to_nat (maxBody + 1)).

#[local] Instance withGzip : http.Lib gohttp.body := withGunzip gzZeros zeros.

Definition gzipResponse : main.HTTPStream :=
  main.New serverToClient (mkFlow "80" "40000")
    [bytes ("HTTP/1.1 200 OK" +:+ CRLF +:+ "Content-Encoding: gzip" +:+ CRLF
            +:+ "Content-Length: 1051" +:+ CRLF +:+ CRLF)
     ++ gzZeros].

(** *** Notions used to state further properties *)

(** The forward entries after a list of answers (address, name), recorded
    in order. *)
Definition recordAll (answers : list (string * string)) (c : dns.Cache) : dns.Cache :=
  foldl (fun c a => dns.Add a.1 a.2 c) c answers.

(** A run of the cache: answers recorded and addresses resolved, one
    operation after the other. *)
Inductive Op : Type :=
| OpAdd (ip fqdn : string)
| OpResolve (ip : string).

Definition perform (R : dns.Resolver) (w : dns.World) (o : Op) : dns.World :=
  match o with
  | OpAdd ip fqdn => dns.recordAnswer ip fqdn w
  | OpResolve ip => (dns.GetWithRDNS R ip w).2
  end.

Definition performAll (R : dns.Resolver) (ops : list Op) (w : dns.World) : dns.World :=
  foldl (perform R) w ops.

(** An address is known when one of the two maps has it. *)
Definition known (ip : string) (w : dns.World) : Prop :=
  is_Some (dns.entries (dns.cache w) !! ip)
  \/ is_Some (dns.rdnsCache (dns.cache w) !! ip).

(** A caller for [ip] that has not yet called the resolver. *)
Definition beforeLookup (ip : string) (t : dns.Caller) : bool :=
  String.eqb ip (dns.arg t)
  && match dns.at_pc t with
     | dns.AtGet | dns.AtRdns | dns.AtLookup => true
     | dns.AtStore _ | dns.Returned _ => false
     end.

Definition countIf {A : Type} (f : A -> bool) (l : list A) : nat :=
  List.length (List.filter f l).

(** The name of an address record for [ip], and the name the last such
    record of a message gives. *)
Definition answerName (ip : string) (rr : dns.RR) : option string :=
  match rr with
  | dns.A name addr => if String.eqb addr ip then Some name else None
  | dns.AAAA name addr => if String.eqb addr ip then Some name else None
  | dns.CNAME _ _ => None
  | dns.OtherRR => None
  end.

Fixpoint lastAnswer (ip : string) (answers : list dns.RR) : option string :=
  match answers with
  | [] => None
  | rr :: rest =>
      match lastAnswer ip rest with
      | Some name => Some name
      | None => answerName ip rr
      end
  end.

(** The endpoints of a printed message. *)
Definition srcOf (o : Output) : Endpoint :=
  match o with
  | HTTPRequest r => req_src r
  | HTTPResponse r => resp_src r
  end.

Definition dstOf (o : Output) : Endpoint :=
  match o with
  | HTTPRequest r => req_dst r
  | HTTPResponse r => resp_dst r
  end.

(** The log of look-ups has no address twice, and holds only addresses
    that the reverse map has. *)
Definition logInv (w : dns.World) : Prop :=
  NoDup (dns.lookups w)
  /\ forall ip, ip ∈ dns.lookups w -> is_Some (dns.rdnsCache (dns.cache w) !! ip).

(** Five bytes of a request, all that is delivered to the stream. *)
Definition fiveBytes : main.HTTPStream :=
  main.New clientToServer (mkFlow "40000" "80") [bytes "GET /"].

(** How a printed message is labelled for the stream [h] and the cache
    [c]: with the stream's own endpoints, and with the names the forward
    map has for them. *)
Definition labelledFor (h : main.HTTPStream) (c : dns.Cache) (o : Output) : Prop :=
  srcOf o = mkEndpoint (Src (main.net h)) (Src (main.transport h))
                       (main.cachedFQDN c (Src (main.net h)))
  /\ dstOf o = mkEndpoint (Dst (main.net h)) (Dst (main.transport h))
                          (main.cachedFQDN c (Dst (main.net h))).

(** The body note agrees with the [Content-Encoding] header printed
    beside it. *)
Definition noteMatchesHeader (o : Output) : Prop :=
  forall bo, bodyOf o = Some bo ->
    (note bo = Plain
     <-> http.Header_Get (headersOf o) "Content-Encoding" <> "gzip").

(** A resolver that finds no name. *)
Definition noName : dns.Resolver := fun _ _ => None.

(** A client direction for the stream package: a request with a body of
    three bytes, then bytes that are no request. *)
Definition clientStream : httpstream.Stream :=
  {| httpstream.net := clientToServer;
     httpstream.transport := mkFlow "40000" "80";
     httpstream.r :=
       bufio.NewReader
         (bytes ("POST /u HTTP/1.1" +:+ CRLF +:+ "Host: a" +:+ CRLF
                 +:+ "Content-Length: 3" +:+ CRLF +:+ CRLF +:+ "abc"
                 +:+ "HTTP/1.1 200 OK" +:+ CRLF +:+ CRLF));
     httpstream.isClient := true |}.

(** A body printed as read: plain, counted, and within the buffer. *)
Definition plainWithinBuffer (o : Output) : Prop :=
  forall bo, bodyOf o = Some bo ->
    note bo = Plain
    /\ count bo = len (shown bo)
    /\ (0 < len (shown bo) <= maxBody)%Z.

(** The world after the stream package has printed a message: the two
    endpoints resolved, source first. *)
Definition resolvedEnds (R : dns.Resolver) (s : httpstream.Stream)
    (w : dns.World) : dns.World :=
  (dns.GetWithRDNS R (Dst (httpstream.net s))
     (dns.GetWithRDNS R (Src (httpstream.net s)) w).2).2.

(** A DNS response that names the server of [clientToServer]. *)
Definition serverAnswer : dns.Msg :=
  dns.mkMsg true [("example.com", "A")] [dns.A "example.com." "10.0.0.2"].

(** A printed message carries, for each endpoint that [answers] name, the
    name of the last answer for it, less its final dot. *)
Definition namedBy (h : main.HTTPStream) (answers : list dns.RR) (o : Output) : Prop :=
  (forall name, lastAnswer (Src (main.net h)) answers = Some name ->
     fqdn (srcOf o) = strings.TrimSuffix name ".")
  /\ (forall name, lastAnswer (Dst (main.net h)) answers = Some name ->
        fqdn (dstOf o) = strings.TrimSuffix name ".").


(** A connection on which the client sends a request that announces five
    bytes of body, and the server answers with bytes that begin like a TLS
    record and go on with a response. *)
Definition tlsAfterRequest : list main.ScatterGather :=
  [main.mkScatterGather main.TCPDirClientToServer
     (bytes ("POST /u HTTP/1.1" +:+ CRLF +:+ "Host: a" +:+ CRLF
             +:+ "Content-Length: 5" +:+ CRLF +:+ CRLF));
   main.mkScatterGather main.TCPDirServerToClient
     ([x16; x03; x01; x00; x00]
      ++ bytes ("HTTP/1.1 200 OK" +:+ CRLF +:+ "Content-Length: 0" +:+ CRLF +:+ CRLF))].

(** A response without [Content-Length] followed by 5000 bytes. *)
Definition longWithoutLength : main.HTTPStream :=
  main.New serverToClient (mkFlow "80" "40000")
    [bytes ("HTTP/1.1 200 OK" +:+ CRLF +:+ CRLF) ++ repeat x61 5000].

(** The status code of a status text such as ["200 OK"]: its first word,
    if that is three digits. *)
Definition statusCode (status : string) : option Z :=
  let l := list_byte_of_string status in
  let word := match gohttp.cut gohttp.SP l with Some (c, _) => c | None => l end in
  if (List.length word =? 3)%nat then gohttp.decimal 0 word else None.


(** A connection with a request of the client and the response of the
    server. *)
Definition exchange : list main.ScatterGather :=
  [main.mkScatterGather main.TCPDirClientToServer
     (bytes ("GET / HTTP/1.1" +:+ CRLF +:+ "Host: a" +:+ CRLF +:+ CRLF));
   main.mkScatterGather main.TCPDirServerToClient
     (bytes ("HTTP/1.1 200 OK" +:+ CRLF +:+ "Content-Length: 2" +:+ CRLF +:+ CRLF
             +:+ "ok"))].

(** A printed message carries the addresses and ports of the stream. *)
Definition endpointsOf (h : main.HTTPStream) (o : Output) : Prop :=
  ip (srcOf o) = Src (main.net h)
  /\ port (srcOf o) = Src (main.transport h)
  /\ ip (dstOf o) = Dst (main.net h)
  /\ port (dstOf o) = Dst (main.transport h).

(* ===================================================================== *)
(** * Properties *)
(* ===================================================================== *)

(** ** The reference instance keeps the contract of [io.Reader] *)

Lemma len_nonneg {A : Type} (l : list A) : (0 <= len l)%Z.
Proof. unfold len. lia. Qed.

Lemma len_take_le {A : Type} (k : Z) (l : list A) :
  (0 <= k)%Z -> (len (take (Z.to_nat k) l) <= k)%Z.
Proof. intros Hk. unfold len. rewrite length_take. lia. Qed.

Lemma bufioRead_len (k : Z) (b : bufio.Reader) :
  (0 <= k)%Z -> (len (gohttp.bufioRead k b).1 <= k)%Z.
Proof.
  intros Hk. unfold gohttp.bufioRead.
  destruct (k <=? 0)%Z eqn:Hk0; [cbn [fst]; unfold len; cbn [List.length]; lia|].
  apply Z.leb_gt in Hk0.
  assert (Hmin : forall {A} (l : list A),
             (len (take (Z.to_nat (Z.min k (len l))) l) <= k)%Z).
  { intros A l. pose proof (len_nonneg l).
    pose proof (len_take_le (Z.min k (len l)) l ltac:(lia)). lia. }
  destruct (bufio.buf b) eqn:Hbuf.
  - destruct (Z.of_nat bufio.defaultBufSize <=? k)%Z; cbn [fst]; apply Hmin.
  - cbn [fst]. apply Hmin.
Qed.

Lemma gohttp_Read_len (bd : gohttp.body) (n : Z) (b : bufio.Reader) :
  (0 <= n)%Z -> (len (gohttp.Read bd n b).1.1 <= n)%Z.
Proof.
  intros Hn. destruct bd as [|m|]; simpl.
  - unfold len; simpl; lia.
  - destruct (m <=? 0)%Z eqn:Hm; [unfold len; simpl; lia|].
    apply Z.leb_gt in Hm.
    pose proof (bufioRead_len (Z.min n m) b ltac:(lia)) as H.
    destruct (gohttp.bufioRead (Z.min n m) b) as [data b']. simpl in *. lia.
  - pose proof (bufioRead_len n b Hn) as H.
    destruct (gohttp.bufioRead n b) as [data b']. simpl in *. lia.
Qed.

Lemma reference_ReadWithinBuffer : http.ReadWithinBuffer reference.
Proof. exact gohttp_Read_len. Qed.

Lemma withGunzip_ReadWithinBuffer (file out : list byte) :
  http.ReadWithinBuffer (withGunzip file out).
Proof. exact gohttp_Read_len. Qed.

(** ** Strings *)

(** [String.append] does not unfold under [simpl] here. *)
Ltac app_step := unfold String.append; fold String.append; simpl.

Lemma string_app_nil_r (s : string) : s +:+ "" = s.
Proof. induction s as [|c s IH]; app_step; [reflexivity | f_equal; exact IH]. Qed.


Lemma string_length_app (s1 s2 : string) :
  String.length (s1 +:+ s2) = (String.length s1 + String.length s2)%nat.
Proof. induction s1 as [|c s1 IH]; app_step; [reflexivity | f_equal; exact IH]. Qed.

Lemma substring_app_tail (s1 s2 : string) :
  String.substring (String.length s1) (String.length s2) (s1 +:+ s2) = s2.
Proof.
  induction s1 as [|c s1 IH]; app_step; [|exact IH].
  induction s2 as [|c s2 IH]; simpl; [reflexivity | f_equal; exact IH].
Qed.

Lemma substring_app_head (s1 s2 : string) :
  String.substring 0 (String.length s1) (s1 +:+ s2) = s1.
Proof.
  induction s1 as [|c s1 IH]; app_step; [now destruct s2 | f_equal; exact IH].
Qed.

Lemma HasSuffix_app (s suffix : string) :
  strings.HasSuffix (s +:+ suffix) suffix = true.
Proof.
  unfold strings.HasSuffix. rewrite string_length_app.
  replace (String.length s + String.length suffix - String.length suffix)%nat
    with (String.length s) by lia.
  rewrite substring_app_tail, String.eqb_refl, andb_true_r.
  apply Nat.leb_le. lia.
Qed.

Lemma TrimSuffix_app (s suffix : string) :
  strings.TrimSuffix (s +:+ suffix) suffix = s.
Proof.
  unfold strings.TrimSuffix. rewrite HasSuffix_app, string_length_app.
  replace (String.length s + String.length suffix - String.length suffix)%nat
    with (String.length s) by lia.
  apply substring_app_head.
Qed.

(** ** The correlation cache *)

Section Cache.
Variable R : dns.Resolver.

Lemma Get_recordAnswer (ip fqdn : string) (w : dns.World) :
  dns.Get (dns.cache (dns.recordAnswer ip fqdn w)) ip
  = (strings.TrimSuffix fqdn ".", true).
Proof. unfold dns.Get; simpl. now rewrite lookup_insert_eq. Qed.

(** A resolution leaves the forward map as it is. *)
Lemma GetWithRDNS_entries (ip : string) (w : dns.World) :
  dns.entries (dns.cache (dns.GetWithRDNS R ip w).2) = dns.entries (dns.cache w).
Proof.
  unfold dns.GetWithRDNS.
  destruct (dns.Get (dns.cache w) ip) as [fqdn [|]]; [reflexivity|].
  destruct (dns.rdnsCache (dns.cache w) !! ip); reflexivity.
Qed.

Lemma resolveAll_entries (ips : list string) (w : dns.World) :
  dns.entries (dns.cache (dns.resolveAll R ips w)) = dns.entries (dns.cache w).
Proof.
  unfold dns.resolveAll. revert w.
  induction ips as [|ip ips IH]; intros w; simpl; [reflexivity|].
  rewrite IH. apply GetWithRDNS_entries.
Qed.

(** So does every step of every caller, whatever the schedule. *)
Lemma step_entries (t : dns.Caller) (w : dns.World) :
  dns.entries (dns.cache (dns.step R t w).2) = dns.entries (dns.cache w).
Proof.
  unfold dns.step. destruct (dns.at_pc t); simpl; try reflexivity.
  - destruct (dns.Get (dns.cache w) (dns.arg t)) as [fqdn [|]]; reflexivity.
  - destruct (dns.rdnsCache (dns.cache w) !! dns.arg t); reflexivity.
Qed.

Lemma exec_entries (sched : list nat) (ts : list dns.Caller) (w : dns.World) :
  dns.entries (dns.cache (dns.exec R sched ts w).2) = dns.entries (dns.cache w).
Proof.
  revert ts w. induction sched as [|i sched IH]; intros ts w; simpl; [reflexivity|].
  destruct (ts !! i) as [t|]; [|apply IH].
  pose proof (step_entries t w) as Hs.
  destruct (dns.step R t w) as [t' w']. simpl in Hs. rewrite IH. exact Hs.
Qed.

(** A caller that runs undisturbed does what [GetWithRDNS] does. *)
Lemma exec_alone (ip : string) (w : dns.World) :
  dns.exec R [0; 0; 0; 0]%nat [dns.call ip] w
  = ([dns.mkCaller ip (dns.Returned (dns.GetWithRDNS R ip w).1)],
     (dns.GetWithRDNS R ip w).2).
Proof.
  unfold dns.GetWithRDNS. simpl. unfold dns.step at 1. simpl.
  destruct (dns.Get (dns.cache w) ip) as [fqdn [|]]; simpl; [reflexivity|].
  unfold dns.step at 1. simpl.
  destruct (dns.rdnsCache (dns.cache w) !! ip); simpl; reflexivity.
Qed.

(** C6.  After [recordAnswer(ip, h + ".")], [resolve(ip)] returns [h], the
    name without its trailing dot, and leaves the world as it is: the log
    of reverse look-ups in particular, so none was performed. *)
Theorem resolve_after_recordAnswer (ip h : string) (w : dns.World) :
  let w1 := dns.recordAnswer ip (h +:+ ".") w in
  dns.GetWithRDNS R ip w1 = (h, w1)
  /\ dns.lookups (dns.GetWithRDNS R ip w1).2 = dns.lookups w.
Proof.
  intros w1.
  assert (H : dns.GetWithRDNS R ip w1 = (h, w1)).
  { unfold dns.GetWithRDNS, w1.
    now rewrite Get_recordAnswer, TrimSuffix_app. }
  split; [exact H | now rewrite H].
Qed.

(** C7, for callers one after the other.  Two resolutions of an address
    in a row return the same hostname (the empty one included), the second
    performs no reverse look-up, and the first performs at most one, for
    that address. *)
Theorem resolve_twice (ip : string) (w : dns.World) :
  let r1 := dns.GetWithRDNS R ip w in
  let r2 := dns.GetWithRDNS R ip r1.2 in
  r2.1 = r1.1
  /\ dns.lookups r2.2 = dns.lookups r1.2
  /\ (dns.lookups r1.2 = dns.lookups w \/ dns.lookups r1.2 = dns.lookups w ++ [ip])
  /\ (dns.lookupCount ip r2.2 <= S (dns.lookupCount ip w))%nat.
Proof.
  intros r1 r2.
  assert (H : r2.1 = r1.1 /\ dns.lookups r2.2 = dns.lookups r1.2
              /\ (dns.lookups r1.2 = dns.lookups w
                  \/ dns.lookups r1.2 = dns.lookups w ++ [ip])).
  { subst r1 r2.
    destruct (dns.GetWithRDNS R ip w) as [h1 w1] eqn:E1.
    unfold dns.GetWithRDNS in E1.
    destruct (dns.Get (dns.cache w) ip) as [fqdn [|]] eqn:HG.
    - inversion E1; subst. simpl.
      unfold dns.GetWithRDNS. rewrite HG. auto.
    - destruct (dns.rdnsCache (dns.cache w) !! ip) as [hostname|] eqn:HR.
      + inversion E1; subst. simpl.
        unfold dns.GetWithRDNS. rewrite HG, HR. auto.
      + simpl in E1. inversion E1; subst. simpl.
        unfold dns.GetWithRDNS, dns.Get in *. simpl.
        destruct (dns.entries (dns.cache w) !! ip); [discriminate|].
        rewrite lookup_insert_eq. simpl. auto. }
  destruct H as (H1 & H2 & H3). repeat split; try assumption.
  unfold dns.lookupCount. rewrite H2.
  destruct H3 as [-> | ->]; [lia|].
  rewrite List.filter_app, List.length_app. simpl.
  destruct (ip =? ip)%string; simpl; lia.
Qed.

(** C10.  Resolutions never touch the forward map: after any sequence of
    them [Size] is what it was, [Get] answers as before for every address,
    and an entry stored by [Add] is returned unchanged. *)
Theorem resolve_keeps_forward_entries (ips : list string) (w : dns.World) :
  let w' := dns.resolveAll R ips w in
  dns.Size (dns.cache w') = dns.Size (dns.cache w)
  /\ (forall ip, dns.Get (dns.cache w') ip = dns.Get (dns.cache w) ip)
  /\ (forall ip fqdn,
        dns.Get (dns.cache (dns.resolveAll R ips (dns.recordAnswer ip fqdn w))) ip
        = (strings.TrimSuffix fqdn ".", true)).
Proof.
  intros w'. subst w'. unfold dns.Size, dns.Get.
  rewrite resolveAll_entries. repeat split.
  intros ip fqdn. rewrite resolveAll_entries. simpl.
  now rewrite lookup_insert_eq.
Qed.

End Cache.

(** C7 as stated fails: two callers that both pass the two cache checks
    before either stores its result perform one reverse look-up each, and
    here return different hostnames. *)
Lemma concurrent_resolves_look_up_twice :
  let '(ts, w) :=
    dns.exec twoAnswers [0; 1; 0; 1; 0; 1; 0; 1]%nat
             [dns.call "10.0.0.9"; dns.call "10.0.0.9"] emptyWorld in
  map dns.at_pc ts = [dns.Returned "a.example"; dns.Returned "b.example"]
  /\ dns.lookupCount "10.0.0.9" w = 2%nat
  /\ ~ (dns.lookupCount "10.0.0.9" w <= 1)%nat.
Proof. vm_compute. repeat split. lia. Qed.

(** ** The port filter of the packet loop *)

(** On the bare numbers the filter answers as its comments say. *)
Lemma isHTTPPort_notHTTP (p : string) :
  In p notHTTP -> capture.isHTTPPort p = false.
Proof.
  unfold notHTTP. simpl.
  intros H. repeat (destruct H as [<- | H]; [reflexivity|]). destruct H.
Qed.

Lemma allFrom_spec (n : nat) (p : N) (f : N -> bool) :
  allFrom n p f = true ->
  forall q, (p <= q < p + N.of_nat n)%N -> f q = true.
Proof.
  revert p. induction n as [|n IH]; intros p H q Hq; [lia|].
  simpl in H. apply andb_prop in H. destruct H as [Hp Hn].
  destruct (N.eq_dec q p) as [->|Hne]; [exact Hp|].
  apply (IH (N.succ p) Hn). lia.
Qed.

(** But the filter is given [TCPPort.String()], and that never is the bare
    number for one of these ports: the filter passes every port. *)
Lemma every_port_checked :
  allFrom (N.to_nat 65536) 0
          (fun p => capture.isHTTPPort (layers.TCPPort_String p)) = true.
Proof. vm_compute. reflexivity. Qed.

Lemma isHTTPPort_TCPPort_String (p : N) :
  (p < 65536)%N -> capture.isHTTPPort (layers.TCPPort_String p) = true.
Proof.
  intros Hp.
  apply (allFrom_spec _ _ _ every_port_checked p).
  rewrite N2Nat.id. lia.
Qed.

Lemma packets_assemble_all (enableDNS : bool) (ps : list capture.Packet)
    (st : capture.Loop) :
  Forall (fun seg => uint16 (capture.SrcPort seg.2)) (tcpSegments ps) ->
  capture.assembled (foldl (capture.packet enableDNS) st ps)
  = capture.assembled st ++ tcpSegments ps.
Proof.
  revert st. induction ps as [|p ps IH]; intros st H; simpl.
  - now rewrite app_nil_r.
  - simpl in H. apply Forall_app in H. destruct H as [Hp Hps].
    rewrite (IH _ Hps). unfold capture.packet.
    destruct (if enableDNS then _ else _) as [out c]. simpl.
    destruct (capture.TCPLayer p) as [tcpLayer|]; [|reflexivity].
    inversion Hp as [|seg l Hsrc _]; subst. simpl in Hsrc.
    rewrite (isHTTPPort_TCPPort_String _ Hsrc). simpl.
    now rewrite <- app_assoc.
Qed.

(** Every TCP segment of a capture is handed to the assembler. *)
Lemma every_segment_assembled (enableDNS : bool) (ps : list capture.Packet) :
  Forall (fun seg => uint16 (capture.SrcPort seg.2)) (tcpSegments ps) ->
  capture.assembled (capture.packets enableDNS ps) = tcpSegments ps.
Proof. intros H. unfold capture.packets. now rewrite packets_assemble_all. Qed.

(** C9, on a capture.  The claim says that a segment from port 22 to port
    22 is never handed to the assembler, so that nothing is printed for
    such a flow.  The loop renders the ports as ["22(ssh)"], which is none
    of the strings of the "not HTTP" case, so the filter answers [true] and
    the segment is handed over, like the one to port 80 after it; and [run]
    on the stream made for it prints the request it carries. *)
Theorem ssh_segment_assembled :
  layers.TCPPort_String 22 = "22(ssh)"
  /\ capture.isHTTPPort (layers.TCPPort_String 22) = true
  /\ capture.assembled (capture.packets true twoPackets)
     = [(mkFlow "10.0.0.1" "10.0.0.2", sshSegment);
        (mkFlow "10.0.0.1" "10.0.0.3", webSegment)]
  /\ option_map (map urlOf)
       (main.run (L := reference) 5
          (main.New (mkFlow "10.0.0.1" "10.0.0.2") (mkFlow "22" "22")
                    [capture.Payload sshSegment])
          dns.NewCache)
     = Some ["http://a:22/"].
Proof. repeat split. Qed.

(** ** The URL of a request *)







(** ** The bytes of a stream while [run] waits *)

Section Run.
Context {B : Type} `{L : http.Lib B}.

Lemma Sleep_stream (h : main.HTTPStream) : main.stream (main.Sleep h) = main.stream h.
Proof.
  unfold main.Sleep, main.stream.
  destruct (main.arriving h) as [|data rest] eqn:E; simpl.
  - now rewrite E.
  - now rewrite <- !app_assoc.
Qed.

Lemma Sleep_buf (h : main.HTTPStream) :
  bufio.buf (main.r (main.Sleep h)) = bufio.buf (main.r h).
Proof. unfold main.Sleep. now destruct (main.arriving h). Qed.

Lemma waitForData_stream (i : nat) (h : main.HTTPStream) :
  main.stream (main.waitForData i h) = main.stream h
  /\ bufio.buf (main.r (main.waitForData i h)) = bufio.buf (main.r h).
Proof.
  revert h. induction i as [|i IH]; intros h; simpl; [easy|].
  destruct (0 <? main.Buffer_Len h)%Z; [easy|].
  destruct (IH (main.Sleep h)) as [-> ->].
  now rewrite Sleep_stream, Sleep_buf.
Qed.

Lemma waitForMore_stream (i : nat) (prevLen : Z) (h : main.HTTPStream) :
  main.stream (main.waitForMore i prevLen h) = main.stream h
  /\ bufio.buf (main.r (main.waitForMore i prevLen h)) = bufio.buf (main.r h).
Proof.
  revert prevLen h. induction i as [|i IH]; intros prevLen h; simpl; [easy|].
  destruct ((main.Buffer_Len h =? prevLen)%Z && (100 <? main.Buffer_Len h)%Z); [easy|].
  destruct (IH (main.Buffer_Len h) (main.Sleep h)) as [-> ->].
  now rewrite Sleep_stream, Sleep_buf.
Qed.

(** A successful [Peek(8)] on a fresh reader shows the first eight bytes
    of the stream. *)
Lemma Peek_fresh (h : main.HTTPStream) (peek : list byte) (b : bufio.Reader) :
  bufio.buf (main.r h) = [] ->
  bufio.Peek 8 (main.r h) = (peek, false, b) ->
  peek = take 8 (main.stream h) /\ List.length peek = 8%nat.
Proof.
  intros Hbuf. unfold main.stream.
  destruct (main.r h) as [rd0 buf0]. simpl in Hbuf. subst buf0.
  unfold bufio.Peek, bufio.fill.
  cbn [bufio.buf bufio.rd List.length app].
  change (8 <=? 0)%nat with false. cbv iota.
  set (n := Nat.min _ _).
  destruct (8 <=? List.length (take n rd0))%nat eqn:E; [|intros [=]].
  intros H. inversion H; subst; clear H. apply Nat.leb_le in E.
  rewrite length_take in E.
  split.
  - rewrite take_take, take_app_le by lia. f_equal. lia.
  - rewrite length_take, length_take. lia.
Qed.

Lemma round_tls (h : main.HTTPStream) (dnsCache : dns.Cache) (rest : list byte) :
  bufio.buf (main.r h) = [] ->
  main.stream h = x16 :: x03 :: rest ->
  main.round h dnsCache = main.Return.
Proof.
  intros Hbuf Hs. unfold main.round.
  destruct (bufio.Peek 8 (main.r h)) as [[peek [|]] b] eqn:EP; [reflexivity|].
  destruct (Peek_fresh h peek b Hbuf EP) as [Hpeek Hlen].
  rewrite Hs in Hpeek. simpl in Hpeek. subst peek.
  replace (3 <=? len _)%Z with true
    by (symmetry; apply Z.leb_le; unfold len; rewrite Hlen; lia).
  reflexivity.
Qed.

(** C3, for the stream of a connection.  The analyzer reads the bytes of
    both directions of a connection as one stream, in the order of
    delivery.  A stream that begins with 0x16 0x03 prints nothing, whatever
    its ports, however its segments arrive, and whatever the HTTP reader
    would make of it: [run] returns before it reads a message. *)
Theorem tls_stream_prints_nothing
    (fuel : nat) (h : main.HTTPStream) (dnsCache : dns.Cache) (rest : list byte) :
  bufio.buf (main.r h) = [] ->
  main.stream h = x16 :: x03 :: rest ->
  main.run (S fuel) h dnsCache = Some [].
Proof.
  intros Hbuf Hs. unfold main.run.
  destruct (waitForData_stream 100 h) as [Hs1 Hb1].
  set (h1 := main.waitForData 100 h) in *.
  destruct (main.Buffer_Len h1 =? 0)%Z; [reflexivity|].
  destruct (waitForMore_stream 10 0 h1) as [Hs2 Hb2].
  set (h2 := main.waitForMore 10 0 h1) in *.
  destruct (main.tlsOnPort h2); [reflexivity|].
  simpl. rewrite (round_tls h2 dnsCache rest); [reflexivity| |]; congruence.
Qed.

End Run.

Lemma tls_stream_prints_nothing_witness :
  main.run 1 (tlsStream "443") dns.NewCache = Some []
  /\ main.run 1 (tlsStream "8080") dns.NewCache = Some [].
Proof.
  split.
  - apply (tls_stream_prints_nothing (L := reference) 0 (tlsStream "443") dns.NewCache
             [x01; x00; x2e; x01; x00; x00; x2a; x03; x03]); reflexivity.
  - apply (tls_stream_prints_nothing (L := reference) 0 (tlsStream "8080") dns.NewCache
             [x01; x00; x2e; x01; x00; x00; x2a; x03; x03]); reflexivity.
Defined.

(** C3 as stated fails.  The first bytes delivered of the server's
    direction of this connection are 0x16 0x03 0x01; they come after the
    client's request, are read as the body that the request announced, and
    the response that follows them in the same direction is printed. *)
Lemma tls_direction_after_request_is_parsed :
  take 3 (main.directionBytes main.TCPDirServerToClient tlsAfterRequest)
  = [x16; x03; x01]
  /\ option_map (map (fun o => (isResponse o, statusOf o,
                                 option_map shown (bodyOf o))))
       (main.run (L := reference) 5
          (main.connection clientToServer (mkFlow "40000" "80") tlsAfterRequest)
          dns.NewCache)
     = Some [(false, "", Some [x16; x03; x01; x00; x00]);
             (true, "200 OK", None)].
Proof. split; vm_compute; reflexivity. Qed.

(** ** Roles, errors and bodies in [run] *)

Section Rounds.
Context {B : Type} `{L : http.Lib B}.

Lemma isResponse_printHTTPResponse (h : main.HTTPStream) (resp : http.Response B)
    (dnsCache : dns.Cache) :
  isResponse (main.printHTTPResponse h resp dnsCache).1 = true.
Proof.
  unfold main.printHTTPResponse. now destruct (main.printBody _ _ _).
Qed.

Lemma isResponse_printHTTPRequest (h : main.HTTPStream) (req : http.Request B)
    (dnsCache : dns.Cache) :
  isResponse (main.printHTTPRequest h req dnsCache).1 = false.
Proof.
  unfold main.printHTTPRequest. now destruct (main.printBody _ _ _).
Qed.

Lemma Peek_length (n : nat) (b b' : bufio.Reader) (peek : list byte) :
  bufio.Peek n b = (peek, false, b') -> List.length peek = n.
Proof.
  unfold bufio.Peek.
  destruct (n <=? List.length (bufio.buf b))%nat eqn:E1.
  - intros H. inversion H; subst. apply Nat.leb_le in E1.
    rewrite length_take. now apply Nat.min_l.
  - destruct (n <=? List.length (bufio.buf (bufio.fill b)))%nat eqn:E2;
      intros H; inversion H; subst.
    apply Nat.leb_le in E2. rewrite length_take. now apply Nat.min_l.
Qed.

(** C4, as the loop has it.  The role is decided in every round, for the
    message of that round: a round that prints a message has peeked eight
    bytes that are not a TLS record header, and the message is a response
    exactly when those bytes begin with ["HTTP/"], a request otherwise,
    whatever was printed for the direction before. *)
Theorem role_decided_each_round
    (h h' : main.HTTPStream) (dnsCache : dns.Cache) (o : Output) :
  main.round h dnsCache = main.Continue h' [o] ->
  let '(peek, err, _) := bufio.Peek 8 (main.r h) in
  err = false
  /\ List.length peek = 8%nat
  /\ main.isTLSRecord peek = false
  /\ isResponse o = strings.HasPrefix (string_of_list_byte peek) "HTTP/".
Proof.
  unfold main.round.
  destruct (bufio.Peek 8 (main.r h)) as [[peek [|]] b] eqn:EP; [discriminate|].
  pose proof (Peek_length _ _ _ _ EP) as Hlen.
  replace (3 <=? len peek)%Z with true
    by (symmetry; apply Z.leb_le; unfold len; rewrite Hlen; lia).
  destruct (main.isTLSRecord peek); [discriminate|]. cbn [andb].
  destruct (strings.HasPrefix (string_of_list_byte peek) "HTTP/").
  - destruct (http.ReadResponse _) as [[resp|] b']; [|discriminate].
    pose proof (isResponse_printHTTPResponse
                  (main.withReader (main.withReader h b) b') resp dnsCache) as Hr.
    destruct (main.printHTTPResponse _ resp dnsCache) as [o' h''].
    intros H. inversion H; subst. auto.
  - destruct (http.ReadRequest _) as [[req|] b'].
    + pose proof (isResponse_printHTTPRequest
                    (main.withReader (main.withReader h b) b') req dnsCache) as Hr.
      destruct (main.printHTTPRequest _ req dnsCache) as [o' h''].
      intros H. inversion H; subst. auto.
    + destruct (_ <? _)%Z; discriminate.
Qed.

(** What a round does when a read fails.  In the response position it
    pauses and goes on; in the request position it pauses and goes on when
    the stream's buffer holds more than the reader has buffered, and
    returns otherwise. *)
Lemma round_response_error
    (h : main.HTTPStream) (dnsCache : dns.Cache) (peek : list byte)
    (b b' : bufio.Reader) :
  bufio.Peek 8 (main.r h) = (peek, false, b) ->
  main.isTLSRecord peek = false ->
  strings.HasPrefix (string_of_list_byte peek) "HTTP/" = true ->
  http.ReadResponse b = (None, b') ->
  main.round h dnsCache = main.Continue (main.Sleep (main.withReader h b')) [].
Proof.
  intros EP HT HP HR. unfold main.round. rewrite EP, HT, andb_false_r, HP.
  cbn [main.withReader main.r]. now rewrite HR.
Qed.

Lemma round_request_error
    (h : main.HTTPStream) (dnsCache : dns.Cache) (peek : list byte)
    (b b' : bufio.Reader) :
  bufio.Peek 8 (main.r h) = (peek, false, b) ->
  main.isTLSRecord peek = false ->
  strings.HasPrefix (string_of_list_byte peek) "HTTP/" = false ->
  http.ReadRequest b = (None, b') ->
  main.round h dnsCache
  = let h' := main.Sleep (main.withReader h b') in
    if (bufio.Buffered (main.r h') <? main.Buffer_Len h')%Z
    then main.Continue h' [] else main.Return.
Proof.
  intros EP HT HP HR. unfold main.round. rewrite EP, HT, andb_false_r, HP.
  cbn [main.withReader main.r]. now rewrite HR.
Qed.

(** C8, as the loop has it.  After a failed read the loop pauses; in the
    response position it always goes on from the next unread byte, in the
    request position it goes on when the stream's buffer holds more than
    the reader has buffered and returns otherwise.  When the failed read
    has used up the stream (nothing is left in the reader and no segment is
    still to come), the loop ends and prints nothing more, in either
    position. *)
Theorem after_parse_error
    (h : main.HTTPStream) (dnsCache : dns.Cache)
    (peek : list byte) (b b' : bufio.Reader) :
  bufio.Peek 8 (main.r h) = (peek, false, b) ->
  main.isTLSRecord peek = false ->
  (if strings.HasPrefix (string_of_list_byte peek) "HTTP/"
   then http.ReadResponse b = (None, b')
   else http.ReadRequest b = (None, b')) ->
  let h' := main.Sleep (main.withReader h b') in
  main.round h dnsCache
  = (if strings.HasPrefix (string_of_list_byte peek) "HTTP/"
     then main.Continue h' []
     else if (bufio.Buffered (main.r h') <? main.Buffer_Len h')%Z
          then main.Continue h' [] else main.Return)
  /\ (main.arriving h = [] -> bufio.buf b' = [] -> bufio.rd b' = [] ->
      forall fuel, main.loop (S (S fuel)) h dnsCache = Some []).
Proof.
  intros EP HT Hread h'.
  assert (Hround : main.round h dnsCache
                   = (if strings.HasPrefix (string_of_list_byte peek) "HTTP/"
                      then main.Continue h' []
                      else if (bufio.Buffered (main.r h') <? main.Buffer_Len h')%Z
                           then main.Continue h' [] else main.Return)).
  { destruct (strings.HasPrefix (string_of_list_byte peek) "HTTP/") eqn:HP.
    - exact (round_response_error h dnsCache peek b b' EP HT HP Hread).
    - exact (round_request_error h dnsCache peek b b' EP HT HP Hread). }
  split; [exact Hround|].
  intros Harr Hbuf Hrd fuel.
  assert (HS : h' = main.withReader h b').
  { subst h'. unfold main.Sleep, main.withReader. simpl. now rewrite Harr. }
  cbn [main.loop]. rewrite Hround, HS.
  destruct (strings.HasPrefix (string_of_list_byte peek) "HTTP/").
  - unfold main.round, bufio.Peek, bufio.fill. cbn [main.withReader main.r].
    rewrite Hbuf, Hrd. reflexivity.
  - unfold bufio.Buffered, main.Buffer_Len. cbn [main.withReader main.r].
    rewrite Hbuf, Hrd. reflexivity.
Qed.

(** What [printBody] reports is absent exactly when there is no body
    reader or its one [Read] stores nothing. *)
Lemma printBody_None (body : option B) (contentEncoding : string) (b : bufio.Reader) :
  (main.printBody body contentEncoding b).1 = None
  <-> body = None
      \/ exists bd, body = Some bd /\ (http.Read bd maxBody b).1.1 = [].
Proof.
  unfold main.printBody. destruct body as [bd|]; [|simpl; tauto].
  destruct (http.Read bd maxBody b) as [[bodyData bd'] b1] eqn:ER. simpl.
  destruct bodyData as [|c bodyData].
  - simpl. split; [|reflexivity]. intros _. right. exists bd.
    rewrite ER. auto.
  - replace (0 <? len (c :: bodyData))%Z with true
      by (symmetry; apply Z.ltb_lt; unfold len; simpl; lia).
    split.
    + destruct (String.eqb contentEncoding "gzip"); [|discriminate].
      destruct (main.decompressGzip (c :: bodyData)); discriminate.
    + intros [H | (bd0 & H & H')]; [discriminate|].
      inversion H; subst. rewrite ER in H'. discriminate.
Qed.

(** The printers consult no header to decide whether a body is printed:
    for a request and for a response alike the body is absent exactly when
    the library handed over no body reader or the one [Read] of that
    reader stores no byte. *)
Lemma body_absent_iff_nothing_read
    (h : main.HTTPStream) (req : http.Request B) (resp : http.Response B)
    (dnsCache : dns.Cache) :
  (bodyOf (main.printHTTPRequest h req dnsCache).1 = None
   <-> http.Body req = None
       \/ exists bd, http.Body req = Some bd
                     /\ (http.Read bd maxBody (main.r h)).1.1 = [])
  /\ (bodyOf (main.printHTTPResponse h resp dnsCache).1 = None
      <-> http.RBody resp = None
          \/ exists bd, http.RBody resp = Some bd
                        /\ (http.Read bd maxBody (main.r h)).1.1 = []).
Proof.
  split.
  - rewrite <- (printBody_None (http.Body req)
                  (http.Header_Get (http.Header_ req) "Content-Encoding") (main.r h)).
    unfold main.printHTTPRequest. now destruct (main.printBody _ _ _).
  - rewrite <- (printBody_None (http.RBody resp)
                  (http.Header_Get (http.RHeader resp) "Content-Encoding") (main.r h)).
    unfold main.printHTTPResponse. now destruct (main.printBody _ _ _).
Qed.

End Rounds.

(** *** Concrete directions, read with the reference instance *)

Example exampleRequest_printed :
  option_map (map (fun o => (urlOf o, bodyOf o)))
             (main.run 5 exampleRequest dns.NewCache)
  = Some [("http://example.com/a?x=1", None)].
Proof. vm_compute. reflexivity. Qed.

(** C4 as stated fails: the two messages of this direction are printed
    under different roles, the first as a request and the second as a
    response. *)
Lemma roles_differ_in_one_direction :
  option_map (map isResponse) (main.run 5 mixedDirection dns.NewCache)
  = Some [false; true].
Proof. vm_compute. reflexivity. Qed.

Lemma role_decided_each_round_witness :
  exists h' o,
    main.round atResponse dns.NewCache = main.Continue h' [o]
    /\ let '(peek, err, _) := bufio.Peek 8 (main.r atResponse) in
       err = false
       /\ List.length peek = 8%nat
       /\ main.isTLSRecord peek = false
       /\ isResponse o = strings.HasPrefix (string_of_list_byte peek) "HTTP/".
Proof.
  eexists. eexists. split.
  - vm_compute. reflexivity.
  - eapply (role_decided_each_round (L := reference) atResponse _ dns.NewCache).
    vm_compute. reflexivity.
Defined.

(** C8 as stated fails: the read of the first start line fails, the loop
    goes on from the next unread byte, and the response that follows is
    printed. *)
Lemma message_printed_after_parse_error :
  (gohttp.ReadResponse
     (bufio.NewReader (concat (main.arriving malformedThenResponse)))).1 = None
  /\ option_map (map statusOf) (main.run 5 malformedThenResponse dns.NewCache)
     = Some ["200 OK"].
Proof. split; vm_compute; reflexivity. Qed.

Example unterminatedHeader_prints_nothing :
  main.loop (L := reference) 2 unterminatedHeader dns.NewCache = Some [].
Proof. vm_compute. reflexivity. Qed.

Lemma after_parse_error_witness :
  exists b',
    gohttp.ReadRequest (bufio.Peek 8 (main.r unterminatedHeader)).2 = (None, b')
    /\ let h' := main.Sleep (main.withReader unterminatedHeader b') in
       main.round unterminatedHeader dns.NewCache
       = (if strings.HasPrefix
               (string_of_list_byte (bufio.Peek 8 (main.r unterminatedHeader)).1.1)
               "HTTP/"
          then main.Continue h' []
          else if (bufio.Buffered (main.r h') <? main.Buffer_Len h')%Z
               then main.Continue h' [] else main.Return)
       /\ (main.arriving unterminatedHeader = [] ->
           bufio.buf b' = [] -> bufio.rd b' = [] ->
           forall fuel, main.loop (S (S fuel)) unterminatedHeader dns.NewCache = Some []).
Proof.
  eexists. split.
  - vm_compute. reflexivity.
  - apply (after_parse_error (L := reference) unterminatedHeader dns.NewCache
             (bufio.Peek 8 (main.r unterminatedHeader)).1.1
             (bufio.Peek 8 (main.r unterminatedHeader)).2).
    + vm_compute. reflexivity.
    + vm_compute. reflexivity.
    + vm_compute. reflexivity.
Defined.


(** *** Framing by the reference reader *)





(** What holds of the output of every round holds of all that [run]
    prints. *)
Section Every.
Context {B : Type} `{L : http.Lib B}.
Variable P : Output -> Prop.
Hypothesis round_P :
  forall h c h' out, main.round h c = main.Continue h' out -> Forall P out.



End Every.









(** One read returns what the reader has buffered: of 5000 bytes after
    the header block of a response without [Content-Length], 4077 are
    printed as its body (the buffer holds 4096, the header block took 19),
    and the rest is read as the start of another message. *)
Example long_body_cut_at_the_buffer :
  option_map (map (fun o => (statusOf o, option_map count (bodyOf o))))
             (main.run (L := reference) 5 longWithoutLength dns.NewCache)
  = Some [("200 OK", Some 4077%Z)].
Proof. vm_compute. reflexivity. Qed.

(** ** The size of a printed body *)

Section Cap.
Context {B : Type} `{L : http.Lib B}.
Hypothesis Read_len : http.ReadWithinBuffer L.

Lemma printBody_withinCap (body : option B) (contentEncoding : string)
    (b : bufio.Reader) (bo : BodyOut) :
  (main.printBody body contentEncoding b).1 = Some bo -> withinCap bo.
Proof.
  unfold main.printBody. destruct body as [bd|]; [|discriminate].
  pose proof (Read_len bd maxBody b ltac:(unfold maxBody; lia)) as Hlen.
  destruct (http.Read bd maxBody b) as [[bodyData bd'] b1]. simpl in *.
  destruct (0 <? len bodyData)%Z; [|discriminate].
  destruct (String.eqb contentEncoding "gzip").
  - destruct (main.decompressGzip bodyData) as [decompressed|] eqn:EG;
      intros [= <-]; unfold withinCap; simpl.
    + split; [reflexivity|]. split; [congruence|].
      intros _. exists bodyData. auto.
    + split; [reflexivity|]. split; [auto | discriminate].
  - intros [= <-]. unfold withinCap; simpl.
    split; [reflexivity|]. split; [auto | discriminate].
Qed.

Lemma round_withinCap (h h' : main.HTTPStream) (dnsCache : dns.Cache)
    (outs : list Output) :
  main.round h dnsCache = main.Continue h' outs ->
  Forall (fun o => forall bo, bodyOf o = Some bo -> withinCap bo) outs.
Proof.
  unfold main.round.
  destruct (bufio.Peek 8 (main.r h)) as [[peek [|]] b]; [discriminate|].
  destruct ((3 <=? len peek)%Z && main.isTLSRecord peek); [discriminate|].
  destruct (strings.HasPrefix (string_of_list_byte peek) "HTTP/").
  - destruct (http.ReadResponse _) as [[resp|] b'].
    + unfold main.printHTTPResponse.
      destruct (main.printBody _ _ _) as [body b''] eqn:EB.
      intros [= <- <-]. constructor; [|constructor].
      simpl. intros bo0 E0. subst body.
      apply (printBody_withinCap _ _ _ _ (f_equal fst EB)).
    + intros [= <- <-]. constructor.
  - destruct (http.ReadRequest _) as [[req|] b'].
    + unfold main.printHTTPRequest.
      destruct (main.printBody _ _ _) as [body b''] eqn:EB.
      intros [= <- <-]. constructor; [|constructor].
      simpl. intros bo0 E0. subst body.
      apply (printBody_withinCap _ _ _ _ (f_equal fst EB)).
    + destruct (_ <? _)%Z; [|discriminate]. intros [= <- <-]. constructor.
Qed.

Lemma loop_withinCap (fuel : nat) (h : main.HTTPStream) (dnsCache : dns.Cache)
    (outs : list Output) :
  main.loop fuel h dnsCache = Some outs ->
  Forall (fun o => forall bo, bodyOf o = Some bo -> withinCap bo) outs.
Proof.
  revert h outs. induction fuel as [|fuel IH]; intros h outs; simpl; [discriminate|].
  destruct (main.round h dnsCache) as [|h' out] eqn:ER.
  - intros [= <-]. constructor.
  - destruct (main.loop fuel h' dnsCache) as [outs'|] eqn:EL; [|discriminate].
    intros [= <-]. apply Forall_app. split.
    + exact (round_withinCap _ _ _ _ ER).
    + exact (IH _ _ EL).
Qed.

(** X10.  What does hold of the bodies that [run] prints: each carries the
    length of what is shown; what is shown is at most [1024*1024] bytes
    long, whatever [Content-Length] announced, unless it was decompressed;
    a decompressed body is the output of the gzip reader on at most
    [1024*1024] bytes read. *)
Theorem printed_body_within_cap
    (fuel : nat) (h : main.HTTPStream) (dnsCache : dns.Cache)
    (outs : list Output) (o : Output) (bo : BodyOut) :
  main.run fuel h dnsCache = Some outs ->
  In o outs ->
  bodyOf o = Some bo ->
  count bo = len (shown bo)
  /\ (note bo <> Decompressed -> (len (shown bo) <= maxBody)%Z)
  /\ (note bo = Decompressed ->
      exists data, (len data <= maxBody)%Z
                   /\ main.decompressGzip data = Some (shown bo)).
Proof.
  unfold main.run. intros Hrun Hin Hbo.
  assert (H : Forall (fun o => forall bo, bodyOf o = Some bo -> withinCap bo) outs).
  { destruct (main.Buffer_Len _ =? 0)%Z; [inversion Hrun; constructor|].
    destruct (main.tlsOnPort _); [inversion Hrun; constructor|].
    exact (loop_withinCap _ _ _ _ Hrun). }
  rewrite List.Forall_forall in H. exact (H o Hin bo Hbo).
Qed.

End Cap.

Lemma printed_body_within_cap_witness :
  exists outs o bo,
    main.run 5 announcedTwoMillion dns.NewCache = Some outs
    /\ In o outs
    /\ bodyOf o = Some bo
    /\ count bo = len (shown bo)
    /\ (note bo <> Decompressed -> (len (shown bo) <= maxBody)%Z)
    /\ (note bo = Decompressed ->
        exists data, (len data <= maxBody)%Z
                     /\ main.decompressGzip (L := reference) data = Some (shown bo)).
Proof.
  eexists. eexists. eexists.
  split; [vm_compute; reflexivity|].
  split; [left; reflexivity|].
  split; [reflexivity|].
  eapply (printed_body_within_cap (L := reference) reference_ReadWithinBuffer
            5 announcedTwoMillion dns.NewCache).
  - vm_compute. reflexivity.
  - left. reflexivity.
  - reflexivity.
Defined.

(** The run on [gzipResponse], whatever the gzip reader returns for
    [gzZeros]. *)
Lemma gzipResponse_printed (out : list byte) :
  option_map (map (fun o => (headersOf o !! "Content-Length", bodyOf o)))
             (main.run (L := withGunzip gzZeros out) 5 gzipResponse dns.NewCache)
  = Some [(Some ["1051"], Some (mkBodyOut out (len out) Decompressed))].
Proof. vm_compute. reflexivity. Qed.

Lemma len_zeros : len zeros = (maxBody + 1)%Z.
Proof.
  unfold len, zeros. rewrite repeat_length.
  rewrite Z2Nat.id; unfold maxBody; lia.
Qed.

(** C2, at a compressed body.  The claim, like the README ("Limits body
    output to 1MB per request/response"), says that no printed body exceeds
    [1024*1024] bytes.  This response announces [Content-Length: 1051]; its
    body is read whole, decompressed, and printed with [1024*1024 + 1]
    bytes. *)
Theorem decompressed_body_exceeds_cap :
  option_map (map (fun o => (headersOf o !! "Content-Length", bodyOf o)))
             (main.run (L := withGzip) 5 gzipResponse dns.NewCache)
  = Some [(Some ["1051"], Some (mkBodyOut zeros (len zeros) Decompressed))]
  /\ (maxBody < len zeros)%Z.
Proof.
  split.
  - exact (gzipResponse_printed zeros).
  - rewrite len_zeros. lia.
Qed.

(* ===================================================================== *)
(** * Further properties of the code *)
(* ===================================================================== *)

(** ** The cache: [Add], [Get], [Size] *)

(** X1.  [Add] is last-answer-wins and local: a second answer for an
    address replaces the first (the cache is the one the second answer
    alone would give), [Get] then returns the second name without its final
    dot, every other address answers as before, and the reverse map is not
    touched. *)
Theorem Add_last_answer_wins (ip a b : string) (c : dns.Cache) :
  dns.Get (dns.Add ip b (dns.Add ip a c)) ip = (strings.TrimSuffix b ".", true)
  /\ dns.Add ip b (dns.Add ip a c) = dns.Add ip b c
  /\ (forall ip', ip' <> ip -> dns.Get (dns.Add ip b c) ip' = dns.Get c ip')
  /\ dns.rdnsCache (dns.Add ip b c) = dns.rdnsCache c.
Proof.
  unfold dns.Get, dns.Add; simpl. repeat split.
  - now rewrite lookup_insert_eq.
  - now rewrite insert_insert_eq.
  - intros ip' Hne. now rewrite lookup_insert_ne by congruence.
Qed.

Lemma recordAll_dom (answers : list (string * string)) (c : dns.Cache) :
  dom (dns.entries (recordAll answers c))
  = dom (dns.entries c) ∪ list_to_set (map fst answers).
Proof.
  unfold recordAll. revert c.
  induction answers as [|[ip fqdn] answers IH]; intros c; simpl.
  - now rewrite union_empty_r_L.
  - rewrite IH. simpl. rewrite dom_insert_L.
    rewrite (comm_L (∪) {[ip]} (dom (dns.entries c))).
    now rewrite <- (assoc_L (∪)).
Qed.

Lemma recordAll_Size_le (answers : list (string * string)) (c : dns.Cache) :
  (dns.Size (recordAll answers c) <= dns.Size c + List.length answers)%nat.
Proof.
  unfold recordAll. revert c.
  induction answers as [|[ip fqdn] answers IH]; intros c; simpl; [lia|].
  etransitivity; [apply IH|].
  unfold dns.Size, dns.Add; simpl. rewrite map_size_insert.
  destruct (dns.entries c !! ip); simpl; lia.
Qed.

(** X2.  [Size] counts addresses, not answers: after any list of answers
    recorded into a new cache it is the number of distinct addresses among
    them, hence at most the number of answers. *)
Theorem Size_counts_addresses (answers : list (string * string)) :
  dns.Size (recordAll answers dns.NewCache)
  = size (list_to_set (map fst answers) : gset string)
  /\ (dns.Size (recordAll answers dns.NewCache) <= List.length answers)%nat.
Proof.
  split.
  - unfold dns.Size. rewrite <- size_dom, recordAll_dom. simpl.
    rewrite dom_empty_L. now rewrite union_empty_l_L.
  - pose proof (recordAll_Size_le answers dns.NewCache) as H.
    unfold dns.Size at 2 in H. simpl in H. rewrite map_size_empty in H. lia.
Qed.

Lemma substring_full (s : string) : String.substring 0 (String.length s) s = s.
Proof. induction s as [|c s IH]; simpl; [reflexivity | f_equal; exact IH]. Qed.

Lemma substring_split (s : string) (n : nat) :
  (n <= String.length s)%nat ->
  String.substring 0 n s +:+ String.substring n (String.length s - n) s = s.
Proof.
  revert n. induction s as [|c s IH]; intros n Hn.
  - simpl in Hn. assert (n = 0%nat) as -> by lia. reflexivity.
  - destruct n as [|n].
    + change (String.substring 0 0 (String c s)) with "".
      rewrite Nat.sub_0_r. unfold String.append. apply substring_full.
    + simpl in Hn. simpl. app_step. f_equal. apply IH. lia.
Qed.

(** X3.  The name [Add] stores is the name given, less exactly one final
    dot if it has one: either the name does not end in a dot and is stored
    as it is, or the stored name followed by a dot is the name given. *)
Theorem stored_name (ip fqdn : string) (c : dns.Cache) :
  let stored := (dns.Get (dns.Add ip fqdn c) ip).1 in
  (strings.HasSuffix fqdn "." = false /\ stored = fqdn)
  \/ (strings.HasSuffix fqdn "." = true /\ stored +:+ "." = fqdn).
Proof.
  unfold dns.Get, dns.Add; simpl. rewrite lookup_insert_eq. simpl.
  unfold strings.TrimSuffix.
  destruct (strings.HasSuffix fqdn ".") eqn:E; [right | left; auto].
  split; [reflexivity|].
  unfold strings.HasSuffix in E. apply andb_prop in E. destruct E as [Hle Heq].
  apply Nat.leb_le in Hle. apply String.eqb_eq in Heq. simpl in Hle, Heq.
  rewrite <- Heq at 2.
  pose proof (substring_split fqdn (String.length fqdn - 1) ltac:(lia)) as H.
  replace (String.length fqdn - (String.length fqdn - 1))%nat with 1%nat in H by lia.
  exact H.
Qed.

(** ** The cache: [GetWithRDNS] *)

Section Resolutions.
Variable R : dns.Resolver.

(** The reverse map only grows: a cached hostname stays what it is. *)
Lemma GetWithRDNS_rdns_stays (ip ip' hostname : string) (w : dns.World) :
  dns.rdnsCache (dns.cache w) !! ip = Some hostname ->
  dns.rdnsCache (dns.cache (dns.GetWithRDNS R ip' w).2) !! ip = Some hostname.
Proof.
  intros H. unfold dns.GetWithRDNS.
  destruct (dns.Get (dns.cache w) ip') as [fqdn [|]]; [exact H|].
  destruct (dns.rdnsCache (dns.cache w) !! ip') as [h|] eqn:E; [exact H|].
  simpl. rewrite lookup_insert_ne; [exact H | congruence].
Qed.

Lemma resolveAll_rdns_stays (ip hostname : string) (ips : list string) (w : dns.World) :
  dns.rdnsCache (dns.cache w) !! ip = Some hostname ->
  dns.rdnsCache (dns.cache (dns.resolveAll R ips w)) !! ip = Some hostname.
Proof.
  unfold dns.resolveAll. revert w.
  induction ips as [|ip' ips IH]; intros w H; simpl; [exact H|].
  apply IH. now apply GetWithRDNS_rdns_stays.
Qed.

Lemma GetWithRDNS_logInv (ip : string) (w : dns.World) :
  logInv w -> logInv (dns.GetWithRDNS R ip w).2.
Proof.
  intros [Hnd Hin]. unfold dns.GetWithRDNS.
  destruct (dns.Get (dns.cache w) ip) as [fqdn [|]]; [now split|].
  destruct (dns.rdnsCache (dns.cache w) !! ip) as [h|] eqn:E; [now split|].
  split; simpl.
  - apply NoDup_app. split; [exact Hnd|]. split; [|apply NoDup_singleton].
    intros x Hx Hx'. apply list_elem_of_singleton in Hx'. subst x.
    apply Hin in Hx. rewrite E in Hx. now destruct Hx.
  - intros x Hx. apply elem_of_app in Hx. destruct Hx as [Hx | Hx].
    + destruct (decide (ip = x)) as [->|Hne].
      * rewrite lookup_insert_eq. eauto.
      * rewrite lookup_insert_ne by exact Hne. now apply Hin.
    + apply list_elem_of_singleton in Hx. subst x.
      rewrite lookup_insert_eq. eauto.
Qed.

Lemma perform_logInv (w : dns.World) (o : Op) :
  logInv w -> logInv (perform R w o).
Proof.
  destruct o as [ip fqdn | ip]; simpl.
  - intros H. exact H.
  - apply GetWithRDNS_logInv.
Qed.

(** X4.  One caller after the other, no address is looked up twice:
    whatever answers are recorded and whatever addresses are resolved, in
    whatever order, starting from any cache, the log of reverse look-ups
    holds every address at most once (a negative result is as good as a
    name for that). *)
Theorem no_address_looked_up_twice (ops : list Op) (c : dns.Cache) :
  NoDup (dns.lookups (performAll R ops (dns.mkWorld c []))).
Proof.
  assert (H : logInv (performAll R ops (dns.mkWorld c []))).
  { unfold performAll.
    assert (H0 : logInv (dns.mkWorld c [])).
    { split; simpl; [apply NoDup_nil_2 | intros ip Hip; inversion Hip]. }
    revert H0. generalize (dns.mkWorld c []).
    induction ops as [|o ops IH]; intros w Hw; simpl; [exact Hw|].
    apply IH. now apply perform_logInv. }
  exact (proj1 H).
Qed.

Lemma GetWithRDNS_forward (ip fqdn : string) (w : dns.World) :
  dns.entries (dns.cache w) !! ip = Some fqdn ->
  (dns.GetWithRDNS R ip w).1 = fqdn.
Proof. intros H. unfold dns.GetWithRDNS, dns.Get. now rewrite H. Qed.

Lemma GetWithRDNS_reverse (ip hostname : string) (w : dns.World) :
  dns.entries (dns.cache w) !! ip = None ->
  dns.rdnsCache (dns.cache w) !! ip = Some hostname ->
  (dns.GetWithRDNS R ip w).1 = hostname.
Proof. intros H H'. unfold dns.GetWithRDNS, dns.Get. now rewrite H, H'. Qed.

Lemma GetWithRDNS_cached (ip : string) (w : dns.World) :
  dns.entries (dns.cache w) !! ip = None ->
  dns.rdnsCache (dns.cache (dns.GetWithRDNS R ip w).2) !! ip
  = Some (dns.GetWithRDNS R ip w).1.
Proof.
  intros E. unfold dns.GetWithRDNS, dns.Get. rewrite E.
  destruct (dns.rdnsCache (dns.cache w) !! ip) as [h|] eqn:E'; simpl.
  - exact E'.
  - now rewrite lookup_insert_eq.
Qed.

(** X5.  A resolved address keeps its hostname: after [GetWithRDNS] has
    answered for an address, it gives the same answer again after any
    number of resolutions of any addresses in between (no answer being
    recorded meanwhile), whatever the resolver would say by then. *)
Theorem resolved_hostname_is_stable (ip : string) (ips : list string) (w : dns.World) :
  let r1 := dns.GetWithRDNS R ip w in
  (dns.GetWithRDNS R ip (dns.resolveAll R ips r1.2)).1 = r1.1.
Proof.
  intros r1. subst r1.
  pose proof (resolveAll_entries R ips (dns.GetWithRDNS R ip w).2) as He.
  rewrite GetWithRDNS_entries in He.
  destruct (dns.entries (dns.cache w) !! ip) as [fqdn|] eqn:E.
  - rewrite (GetWithRDNS_forward ip fqdn w E).
    apply GetWithRDNS_forward. now rewrite He.
  - apply GetWithRDNS_reverse; [now rewrite He|].
    apply resolveAll_rdns_stays. now apply GetWithRDNS_cached.
Qed.

(** Replacing a caller in the list changes the count by that caller. *)
Lemma countIf_insert {A : Type} (f : A -> bool) (l : list A) (i : nat) (x y : A) :
  l !! i = Some x ->
  (countIf f (<[i := y]> l) + (if f x then 1 else 0)
   = countIf f l + (if f y then 1 else 0))%nat.
Proof.
  unfold countIf. revert i. induction l as [|a l IH]; intros i H; [discriminate|].
  destruct i as [|i]; simpl in *.
  - inversion H; subst. destruct (f x), (f y); simpl; lia.
  - specialize (IH i H). destruct (f a); simpl; lia.
Qed.

Lemma step_lookupCount (ip : string) (t : dns.Caller) (w : dns.World) :
  (dns.lookupCount ip (dns.step R t w).2
   + (if beforeLookup ip (dns.step R t w).1 then 1 else 0)
   <= dns.lookupCount ip w + (if beforeLookup ip t then 1 else 0))%nat.
Proof.
  unfold dns.step, beforeLookup. destruct t as [a pc]. simpl.
  destruct pc; simpl.
  - destruct (dns.Get (dns.cache w) a) as [fqdn [|]]; simpl;
      destruct (ip =? a)%string; simpl; lia.
  - destruct (dns.rdnsCache (dns.cache w) !! a); simpl;
      destruct (ip =? a)%string; simpl; lia.
  - unfold dns.lookupCount. simpl.
    rewrite List.filter_app, List.length_app. simpl.
    destruct (ip =? a)%string; simpl; lia.
  - rewrite andb_false_r. unfold dns.lookupCount. simpl. lia.
  - lia.
Qed.

Lemma exec_lookupCount (ip : string) (sched : list nat) (ts : list dns.Caller)
    (w : dns.World) :
  (dns.lookupCount ip (dns.exec R sched ts w).2
   + countIf (beforeLookup ip) (dns.exec R sched ts w).1
   <= dns.lookupCount ip w + countIf (beforeLookup ip) ts)%nat.
Proof.
  revert ts w. induction sched as [|i sched IH]; intros ts w; simpl; [lia|].
  destruct (ts !! i) as [t|] eqn:Ei; [|apply IH].
  pose proof (step_lookupCount ip t w) as Hs.
  destruct (dns.step R t w) as [t' w']. simpl in Hs.
  pose proof (countIf_insert (beforeLookup ip) ts i t t' Ei) as Hc.
  specialize (IH (<[i := t']> ts) w'). lia.
Qed.

Lemma countIf_le {A : Type} (f g : A -> bool) (l : list A) :
  (forall x, f x = true -> g x = true) ->
  (countIf f l <= countIf g l)%nat.
Proof.
  intros H. unfold countIf. induction l as [|a l IH]; simpl; [lia|].
  destruct (f a) eqn:Ef.
  - rewrite (H a Ef). simpl. lia.
  - destruct (g a); simpl; lia.
Qed.

(** X6.  Concurrent callers: whatever the schedule, the reverse look-ups
    performed for an address are at most as many as the callers resolving
    that address, each caller calling the resolver at most once. *)
Theorem one_lookup_per_caller (ip : string) (sched : list nat)
    (ts : list dns.Caller) (w : dns.World) :
  (dns.lookupCount ip (dns.exec R sched ts w).2
   <= dns.lookupCount ip w + countIf (fun t => String.eqb ip (dns.arg t)) ts)%nat.
Proof.
  pose proof (exec_lookupCount ip sched ts w) as H.
  pose proof (countIf_le (beforeLookup ip) (fun t => String.eqb ip (dns.arg t)) ts) as Hle.
  assert (Hf : forall x, beforeLookup ip x = true -> String.eqb ip (dns.arg x) = true).
  { intros x Hx. unfold beforeLookup in Hx. now apply andb_prop in Hx. }
  specialize (Hle Hf). lia.
Qed.

(** X7.  Concurrent callers never touch the forward map either: under
    every schedule [Size] stays what it was and [Get] answers as before for
    every address. *)
Theorem concurrent_resolves_keep_forward_entries
    (sched : list nat) (ts : list dns.Caller) (w : dns.World) :
  dns.Size (dns.cache (dns.exec R sched ts w).2) = dns.Size (dns.cache w)
  /\ (forall ip, dns.Get (dns.cache (dns.exec R sched ts w).2) ip
                 = dns.Get (dns.cache w) ip).
Proof.
  unfold dns.Size, dns.Get. rewrite exec_entries. split; reflexivity.
Qed.

End Resolutions.

(** ** The DNS parser and the packet loop *)

Lemma addAnswer_lookup (ip : string) (rr : dns.RR) (c : dns.Cache) :
  dns.entries (dns.addAnswer c rr) !! ip
  = match answerName ip rr with
    | Some name => Some (strings.TrimSuffix name ".")
    | None => dns.entries c !! ip
    end.
Proof.
  destruct rr as [name addr | name addr | name target |]; simpl; try reflexivity.
  - destruct (String.eqb_spec addr ip) as [->|Hne].
    + apply lookup_insert_eq.
    + now apply lookup_insert_ne.
  - destruct (String.eqb_spec addr ip) as [->|Hne].
    + apply lookup_insert_eq.
    + now apply lookup_insert_ne.
Qed.

Lemma addAnswers_lookup (ip : string) (answers : list dns.RR) (c : dns.Cache) :
  dns.entries (foldl dns.addAnswer c answers) !! ip
  = match lastAnswer ip answers with
    | Some name => Some (strings.TrimSuffix name ".")
    | None => dns.entries c !! ip
    end.
Proof.
  revert c. induction answers as [|rr answers IH]; intros c; simpl; [reflexivity|].
  rewrite IH. destruct (lastAnswer ip answers); [reflexivity|].
  apply addAnswer_lookup.
Qed.

Lemma addAnswers_rdnsCache (answers : list dns.RR) (c : dns.Cache) :
  dns.rdnsCache (foldl dns.addAnswer c answers) = dns.rdnsCache c.
Proof.
  revert c. induction answers as [|rr answers IH]; intros c; simpl; [reflexivity|].
  rewrite IH. now destruct rr.
Qed.

(** X8.  What [ParsePacket] records.  From a response with a question,
    every address gets the name of the last A or AAAA answer for it, less
    its final dot, and an address without such an answer keeps what it had
    (CNAME answers record nothing); the reverse map is not touched.  A
    query, a response without a question (whatever its answers) and a
    packet without a DNS message leave the cache as it is. *)
Theorem ParsePacket_records
    (question : string * string) (questions : list (string * string))
    (answers : list dns.RR) (response : bool) (c : dns.Cache) :
  (forall ip,
     dns.Get (dns.ParsePacket
                (Some (dns.mkMsg true (question :: questions) answers)) c).2 ip
     = match lastAnswer ip answers with
       | Some name => (strings.TrimSuffix name ".", true)
       | None => dns.Get c ip
       end)
  /\ dns.rdnsCache (dns.ParsePacket
                      (Some (dns.mkMsg true (question :: questions) answers)) c).2
     = dns.rdnsCache c
  /\ (dns.ParsePacket (Some (dns.mkMsg false (question :: questions) answers)) c).2 = c
  /\ dns.ParsePacket (Some (dns.mkMsg response [] answers)) c = ([], c)
  /\ dns.ParsePacket None c = ([], c).
Proof.
  repeat split.
  - intros ip. unfold dns.ParsePacket, dns.Get. destruct question as [q qtype]. simpl.
    rewrite addAnswers_lookup. now destruct (lastAnswer ip answers).
  - unfold dns.ParsePacket. destruct question as [q qtype]. simpl.
    apply addAnswers_rdnsCache.
  - unfold dns.ParsePacket. now destruct question.
Qed.

Lemma packet_without_dns (st : capture.Loop) (p : capture.Packet) :
  capture.dnsCache (capture.packet false st p) = capture.dnsCache st
  /\ capture.printed (capture.packet false st p) = capture.printed st.
Proof.
  unfold capture.packet. simpl. split; [reflexivity | apply app_nil_r].
Qed.

Lemma packet_assembled_any_flag (e1 e2 : bool) (st1 st2 : capture.Loop)
    (p : capture.Packet) :
  capture.assembled st1 = capture.assembled st2 ->
  capture.assembled (capture.packet e1 st1 p)
  = capture.assembled (capture.packet e2 st2 p).
Proof.
  intros H. unfold capture.packet.
  destruct (if e1 then _ else _) as [o1 c1].
  destruct (if e2 then _ else _) as [o2 c2]. simpl.
  now rewrite H.
Qed.

Lemma ParsePacket_rdnsCache (layer : option dns.Msg) (c : dns.Cache) :
  dns.rdnsCache (dns.ParsePacket layer c).2 = dns.rdnsCache c.
Proof.
  unfold dns.ParsePacket. destruct layer as [msg|]; [|reflexivity].
  destruct (dns.Question msg) as [|[q qtype] qs]; [reflexivity|].
  destruct (dns.Response msg); [|reflexivity]. simpl.
  apply addAnswers_rdnsCache.
Qed.

Lemma packet_rdnsCache (enableDNS : bool) (st : capture.Loop) (p : capture.Packet) :
  dns.rdnsCache (capture.dnsCache (capture.packet enableDNS st p))
  = dns.rdnsCache (capture.dnsCache st).
Proof.
  unfold capture.packet. destruct enableDNS.
  - pose proof (ParsePacket_rdnsCache (capture.DNSLayer p) (capture.dnsCache st)) as H.
    destruct (dns.ParsePacket _ _) as [out c]. exact H.
  - reflexivity.
Qed.

(** X9.  The DNS switch of the packet loop.  The segments handed to the
    assembler are the same with DNS analysis on or off; with it off the
    cache stays the new, empty one and the DNS parser prints nothing,
    whatever DNS traffic the capture holds; and on or off, the loop never
    puts anything in the reverse map. *)
Theorem packet_loop_dns_switch (ps : list capture.Packet) (enableDNS : bool) :
  capture.assembled (capture.packets true ps)
  = capture.assembled (capture.packets false ps)
  /\ capture.dnsCache (capture.packets false ps) = dns.NewCache
  /\ capture.printed (capture.packets false ps) = []
  /\ dns.rdnsCache (capture.dnsCache (capture.packets enableDNS ps)) = ∅.
Proof.
  unfold capture.packets.
  set (st0 := capture.mkLoop dns.NewCache [] []).
  repeat split.
  - assert (H : capture.assembled st0 = capture.assembled st0) by reflexivity.
    revert H. generalize st0 at 1 3. generalize st0.
    induction ps as [|p ps IH]; intros st1 st2 H; simpl; [exact H|].
    apply IH. now apply packet_assembled_any_flag.
  - assert (H : capture.dnsCache st0 = dns.NewCache) by reflexivity.
    revert H. generalize st0.
    induction ps as [|p ps IH]; intros st H; simpl; [exact H|].
    apply IH. now rewrite (proj1 (packet_without_dns st p)).
  - assert (H : capture.printed st0 = []) by reflexivity.
    revert H. generalize st0.
    induction ps as [|p ps IH]; intros st H; simpl; [exact H|].
    apply IH. now rewrite (proj2 (packet_without_dns st p)).
  - assert (H : dns.rdnsCache (capture.dnsCache st0) = ∅) by reflexivity.
    revert H. generalize st0.
    induction ps as [|p ps IH]; intros st H; simpl; [exact H|].
    apply IH. now rewrite packet_rdnsCache.
Qed.

(** The port filter, on the strings it is given: [isHTTPPort]
    answers [false] for exactly the eight strings 22, 23, 25, 53, 110, 143,
    993 and 995, and [true] for every other string, the empty one and
    anything that is not a number included. *)
Theorem isHTTPPort_false_iff (port : string) :
  capture.isHTTPPort port = false <-> In port notHTTP.
Proof.
  split; [|apply isHTTPPort_notHTTP].
  unfold capture.isHTTPPort.
  destruct (existsb (String.eqb port) ["80"; "8080"; "8000"; "8888"; "3000"; "5000"; "9000"]);
    [discriminate|].
  destruct (existsb (String.eqb port) ["443"; "8443"]); [discriminate|].
  destruct (existsb (String.eqb port)
              ["22"; "23"; "25"; "53"; "110"; "143"; "993"; "995"]) eqn:E;
    [|discriminate].
  intros _. apply List.existsb_exists in E. destruct E as (x & Hx & Heq).
  apply String.eqb_eq in Heq. now subst x.
Qed.

(** ** [run]: when nothing is printed *)

Section Quiet.
Context {B : Type} `{L : http.Lib B}.

(** X11.  A stream to which fewer than eight bytes are delivered in all,
    the two directions of its connection taken together, prints nothing,
    whatever the bytes, the ports and the HTTP library: the peek of eight
    bytes fails and [run] returns. *)
Theorem short_stream_prints_nothing
    (fuel : nat) (h : main.HTTPStream) (dnsCache : dns.Cache) :
  bufio.buf (main.r h) = [] ->
  (List.length (main.stream h) < 8)%nat ->
  main.run (S fuel) h dnsCache = Some [].
Proof.
  intros Hbuf Hs. unfold main.run.
  destruct (waitForData_stream 100 h) as [Hs1 Hb1].
  set (h1 := main.waitForData 100 h) in *.
  destruct (main.Buffer_Len h1 =? 0)%Z; [reflexivity|].
  destruct (waitForMore_stream 10 0 h1) as [Hs2 Hb2].
  set (h2 := main.waitForMore 10 0 h1) in *.
  destruct (main.tlsOnPort h2); [reflexivity|].
  cbn [main.loop]. unfold main.round.
  destruct (bufio.Peek 8 (main.r h2)) as [[peek [|]] b] eqn:EP; [reflexivity|].
  exfalso.
  destruct (Peek_fresh h2 peek b ltac:(congruence) EP) as [Hpeek Hlen].
  rewrite Hs2, Hs1 in Hpeek. subst peek. rewrite length_take in Hlen. lia.
Qed.

Lemma waitForData_silence (n : nat) (h : main.HTTPStream) (rest : list (list byte)) :
  bufio.rd (main.r h) = [] ->
  main.arriving h = repeat [] n ++ rest ->
  main.Buffer_Len (main.waitForData n h) = 0%Z.
Proof.
  revert h. induction n as [|n IH]; intros h Hrd Harr; simpl.
  - unfold main.Buffer_Len. now rewrite Hrd.
  - assert (Hlen : main.Buffer_Len h = 0%Z)
      by (unfold main.Buffer_Len; now rewrite Hrd).
    rewrite Hlen. simpl. apply IH.
    + unfold main.Sleep. simpl in Harr. rewrite Harr. simpl.
      now rewrite Hrd.
    + unfold main.Sleep. simpl in Harr. now rewrite Harr.
Qed.

(** X12.  The wait for the first data is bounded: a stream to which
    nothing is delivered during its first hundred pauses prints nothing,
    whatever is delivered after them. *)
Theorem silent_stream_prints_nothing
    (fuel : nat) (net transport : Flow) (rest : list (list byte))
    (dnsCache : dns.Cache) :
  main.run fuel (main.New net transport (repeat [] 100 ++ rest)) dnsCache = Some [].
Proof.
  unfold main.run.
  rewrite (waitForData_silence 100 _ rest); reflexivity.
Qed.

End Quiet.

Lemma short_stream_prints_nothing_witness :
  main.run (L := reference) 1 fiveBytes dns.NewCache = Some [].
Proof.
  apply (short_stream_prints_nothing (L := reference) 0 fiveBytes dns.NewCache).
  - reflexivity.
  - vm_compute. lia.
Defined.

(** ** [run]: how the printed messages are labelled *)

Section Labels.
Context {B : Type} `{L : http.Lib B}.

Lemma Sleep_flows (h : main.HTTPStream) :
  main.net (main.Sleep h) = main.net h
  /\ main.transport (main.Sleep h) = main.transport h.
Proof. unfold main.Sleep. now destruct (main.arriving h). Qed.

Lemma waitForData_flows (i : nat) (h : main.HTTPStream) :
  main.net (main.waitForData i h) = main.net h
  /\ main.transport (main.waitForData i h) = main.transport h.
Proof.
  revert h. induction i as [|i IH]; intros h; simpl; [easy|].
  destruct (0 <? main.Buffer_Len h)%Z; [easy|].
  destruct (IH (main.Sleep h)) as [-> ->]. apply Sleep_flows.
Qed.

Lemma waitForMore_flows (i : nat) (prevLen : Z) (h : main.HTTPStream) :
  main.net (main.waitForMore i prevLen h) = main.net h
  /\ main.transport (main.waitForMore i prevLen h) = main.transport h.
Proof.
  revert prevLen h. induction i as [|i IH]; intros prevLen h; simpl; [easy|].
  destruct ((main.Buffer_Len h =? prevLen)%Z && (100 <? main.Buffer_Len h)%Z); [easy|].
  destruct (IH (main.Buffer_Len h) (main.Sleep h)) as [-> ->]. apply Sleep_flows.
Qed.

Lemma labelledFor_flows (h h' : main.HTTPStream) (c : dns.Cache) (o : Output) :
  main.net h' = main.net h ->
  main.transport h' = main.transport h ->
  labelledFor h' c o -> labelledFor h c o.
Proof. unfold labelledFor. now intros -> ->. Qed.

Lemma printBody_note (body : option B) (contentEncoding : string)
    (b : bufio.Reader) (bo : BodyOut) :
  (main.printBody body contentEncoding b).1 = Some bo ->
  (note bo = Plain <-> contentEncoding <> "gzip").
Proof.
  unfold main.printBody. destruct body as [bd|]; [|discriminate].
  destruct (http.Read bd maxBody b) as [[bodyData bd'] b1]. simpl.
  destruct (0 <? len bodyData)%Z; [|discriminate].
  destruct (String.eqb_spec contentEncoding "gzip") as [->|Hne].
  - destruct (main.decompressGzip bodyData); intros [= <-]; simpl;
      split; [discriminate | congruence | discriminate | congruence].
  - intros [= <-]. simpl. split; auto.
Qed.

Lemma printHTTPRequest_facts (h : main.HTTPStream) (req : http.Request B)
    (c : dns.Cache) :
  main.net (main.printHTTPRequest h req c).2 = main.net h
  /\ main.transport (main.printHTTPRequest h req c).2 = main.transport h
  /\ labelledFor h c (main.printHTTPRequest h req c).1
  /\ noteMatchesHeader (main.printHTTPRequest h req c).1.
Proof.
  unfold main.printHTTPRequest, labelledFor, noteMatchesHeader.
  destruct (main.printBody _ _ _) as [body b'] eqn:EB. simpl.
  repeat split; intros; subst;
    eapply (printBody_note _ _ _ _ (f_equal fst EB)); eauto.
Qed.

Lemma printHTTPResponse_facts (h : main.HTTPStream) (resp : http.Response B)
    (c : dns.Cache) :
  main.net (main.printHTTPResponse h resp c).2 = main.net h
  /\ main.transport (main.printHTTPResponse h resp c).2 = main.transport h
  /\ labelledFor h c (main.printHTTPResponse h resp c).1
  /\ noteMatchesHeader (main.printHTTPResponse h resp c).1.
Proof.
  unfold main.printHTTPResponse, labelledFor, noteMatchesHeader.
  destruct (main.printBody _ _ _) as [body b'] eqn:EB. simpl.
  repeat split; intros; subst;
    eapply (printBody_note _ _ _ _ (f_equal fst EB)); eauto.
Qed.

Lemma round_facts (h h' : main.HTTPStream) (c : dns.Cache) (outs : list Output) :
  main.round h c = main.Continue h' outs ->
  main.net h' = main.net h
  /\ main.transport h' = main.transport h
  /\ Forall (fun o => labelledFor h c o /\ noteMatchesHeader o) outs.
Proof.
  unfold main.round.
  destruct (bufio.Peek 8 (main.r h)) as [[peek [|]] b]; [discriminate|].
  destruct ((3 <=? len peek)%Z && main.isTLSRecord peek); [discriminate|].
  destruct (strings.HasPrefix (string_of_list_byte peek) "HTTP/").
  - destruct (http.ReadResponse _) as [[resp|] b'].
    + pose proof (printHTTPResponse_facts
                    (main.withReader (main.withReader h b) b') resp c) as (Hn & Ht & Hl & Hm).
      destruct (main.printHTTPResponse _ resp c) as [o h''].
      intros [= <- <-]. simpl in *. repeat split; try assumption.
      constructor; [|constructor]. split; [|exact Hm].
      revert Hl. now apply labelledFor_flows.
    + intros [= <- <-].
      destruct (Sleep_flows (main.withReader (main.withReader h b) b')) as [-> ->].
      repeat split. constructor.
  - destruct (http.ReadRequest _) as [[req|] b'].
    + pose proof (printHTTPRequest_facts
                    (main.withReader (main.withReader h b) b') req c) as (Hn & Ht & Hl & Hm).
      destruct (main.printHTTPRequest _ req c) as [o h''].
      intros [= <- <-]. simpl in *. repeat split; try assumption.
      constructor; [|constructor]. split; [|exact Hm].
      revert Hl. now apply labelledFor_flows.
    + destruct (_ <? _)%Z; [|discriminate]. intros [= <- <-].
      destruct (Sleep_flows (main.withReader (main.withReader h b) b')) as [-> ->].
      repeat split. constructor.
Qed.

Lemma loop_facts (fuel : nat) (h : main.HTTPStream) (c : dns.Cache)
    (outs : list Output) :
  main.loop fuel h c = Some outs ->
  Forall (fun o => labelledFor h c o /\ noteMatchesHeader o) outs.
Proof.
  revert h outs. induction fuel as [|fuel IH]; intros h outs; simpl; [discriminate|].
  destruct (main.round h c) as [|h' out] eqn:ER.
  - intros [= <-]. constructor.
  - destruct (main.loop fuel h' c) as [outs'|] eqn:EL; [|discriminate].
    intros [= <-].
    destruct (round_facts _ _ _ _ ER) as (Hn & Ht & Hout).
    apply Forall_app. split; [exact Hout|].
    specialize (IH _ _ EL).
    eapply Forall_impl; [exact IH|].
    intros o [Hl Hm]. split; [|exact Hm].
    revert Hl. now apply labelledFor_flows.
Qed.

Lemma run_facts (fuel : nat) (h : main.HTTPStream) (c : dns.Cache)
    (outs : list Output) :
  main.run fuel h c = Some outs ->
  Forall (fun o => labelledFor h c o /\ noteMatchesHeader o) outs.
Proof.
  unfold main.run.
  destruct (waitForData_flows 100 h) as [Hn1 Ht1].
  set (h1 := main.waitForData 100 h) in *.
  destruct (main.Buffer_Len h1 =? 0)%Z; [intros [= <-]; constructor|].
  destruct (waitForMore_flows 10 0 h1) as [Hn2 Ht2].
  set (h2 := main.waitForMore 10 0 h1) in *.
  destruct (main.tlsOnPort h2); [intros [= <-]; constructor|].
  intros Hl. apply loop_facts in Hl.
  eapply Forall_impl; [exact Hl|].
  intros o [Hlab Hm]. split; [|exact Hm].
  revert Hlab. apply labelledFor_flows; congruence.
Qed.

(** X13.  Every message that [run] prints for a stream, request or
    response, carries as source and destination the addresses and ports
    the stream was made with, those of the first packet of the connection,
    whichever direction the bytes of the message travelled in and whatever
    the cache holds: a response is printed with the sender of the first
    packet as its source. *)
Theorem run_labels_messages
    (fuel : nat) (h : main.HTTPStream) (dnsCache : dns.Cache) (outs : list Output) :
  main.run fuel h dnsCache = Some outs ->
  Forall (endpointsOf h) outs.
Proof.
  intros H. apply run_facts in H.
  eapply Forall_impl; [exact H|].
  intros o [[Hs Hd] _]. unfold endpointsOf. now rewrite Hs, Hd.
Qed.

(** X14.  The note printed with a body agrees with the headers printed
    with it: a body is reported plain exactly when the first
    [Content-Encoding] value of its message is not ["gzip"] (compared as it
    stands, so ["GZIP"] or ["gzip, br"] are not decompressed), and as
    decompressed or failed to decompress otherwise. *)
Theorem body_note_matches_header
    (fuel : nat) (h : main.HTTPStream) (dnsCache : dns.Cache) (outs : list Output) :
  main.run fuel h dnsCache = Some outs ->
  Forall noteMatchesHeader outs.
Proof.
  intros H. apply run_facts in H.
  eapply Forall_impl; [exact H|]. now intros o [_ Hm].
Qed.

End Labels.

Lemma run_labels_messages_witness :
  exists outs,
    main.run (L := reference) 5
      (main.connection clientToServer (mkFlow "40000" "80") exchange)
      dns.NewCache = Some outs
    /\ map (fun o => (isResponse o, ip (srcOf o), port (srcOf o))) outs
       = [(false, "10.0.0.1", "40000"); (true, "10.0.0.1", "40000")]
    /\ Forall (endpointsOf
                 (main.connection clientToServer (mkFlow "40000" "80") exchange))
              outs.
Proof.
  eexists. split; [vm_compute; reflexivity|]. split; [reflexivity|].
  apply (run_labels_messages (L := reference) 5
           (main.connection clientToServer (mkFlow "40000" "80") exchange)
           dns.NewCache).
  vm_compute. reflexivity.
Defined.

Lemma body_note_matches_header_witness :
  exists outs,
    main.run (L := reference) 5 announcedTwoMillion dns.NewCache = Some outs
    /\ outs <> []
    /\ Forall noteMatchesHeader outs.
Proof.
  eexists. split; [vm_compute; reflexivity|]. split; [discriminate|].
  apply (body_note_matches_header (L := reference) 5 announcedTwoMillion dns.NewCache).
  vm_compute. reflexivity.
Defined.

(** ** The stream package: [Run] and its printers *)

Section StreamPackage.
Context {B : Type} `{L : http.Lib B}.
Variable R : dns.Resolver.

Lemma GetWithRDNS_makes_known (ip : string) (w : dns.World) :
  known ip (dns.GetWithRDNS R ip w).2.
Proof.
  unfold known, dns.GetWithRDNS, dns.Get.
  destruct (dns.entries (dns.cache w) !! ip) as [fqdn|] eqn:E; simpl.
  - left. rewrite E. eauto.
  - destruct (dns.rdnsCache (dns.cache w) !! ip) as [h|] eqn:E'; simpl.
    + right. rewrite E'. eauto.
    + right. rewrite lookup_insert_eq. eauto.
Qed.

Lemma GetWithRDNS_keeps_known (ip ip' : string) (w : dns.World) :
  known ip' w -> known ip' (dns.GetWithRDNS R ip w).2.
Proof.
  unfold known. rewrite GetWithRDNS_entries. intros [H | [h H]]; [now left|].
  right. rewrite (GetWithRDNS_rdns_stays R ip' ip h w H). eauto.
Qed.

Lemma GetWithRDNS_known_same (ip : string) (w : dns.World) :
  known ip w -> (dns.GetWithRDNS R ip w).2 = w.
Proof.
  unfold known, dns.GetWithRDNS, dns.Get.
  destruct (dns.entries (dns.cache w) !! ip) as [fqdn|]; [reflexivity|].
  destruct (dns.rdnsCache (dns.cache w) !! ip) as [h|]; [reflexivity|].
  intros [[x Hx] | [x Hx]]; discriminate.
Qed.

Lemma GetWithRDNS_log (ip : string) (w : dns.World) :
  dns.lookups (dns.GetWithRDNS R ip w).2 = dns.lookups w
  \/ dns.lookups (dns.GetWithRDNS R ip w).2 = dns.lookups w ++ [ip].
Proof.
  unfold dns.GetWithRDNS.
  destruct (dns.Get (dns.cache w) ip) as [fqdn [|]]; [now left|].
  destruct (dns.rdnsCache (dns.cache w) !! ip); [now left | now right].
Qed.

Lemma printHTTPRequest_stream (s : httpstream.Stream) (req : http.Request B)
    (w : dns.World) :
  let '(o, s', w') := httpstream.printHTTPRequest R s req w in
  httpstream.net s' = httpstream.net s
  /\ httpstream.isClient s' = httpstream.isClient s
  /\ w' = resolvedEnds R s w
  /\ isResponse o = false
  /\ bodyOf o = (httpstream.printBody (http.Body req) (httpstream.r s)).1.
Proof.
  unfold httpstream.printHTTPRequest, resolvedEnds.
  destruct (dns.GetWithRDNS R (Src (httpstream.net s)) w) as [srcFQDN w1].
  cbn [snd].
  destruct (dns.GetWithRDNS R (Dst (httpstream.net s)) w1) as [dstFQDN w2].
  destruct (httpstream.printBody _ _) as [body b']. simpl. auto.
Qed.

Lemma printHTTPResponse_stream (s : httpstream.Stream) (resp : http.Response B)
    (w : dns.World) :
  let '(o, s', w') := httpstream.printHTTPResponse R s resp w in
  httpstream.net s' = httpstream.net s
  /\ httpstream.isClient s' = httpstream.isClient s
  /\ w' = resolvedEnds R s w
  /\ isResponse o = true
  /\ bodyOf o = (httpstream.printBody (http.RBody resp) (httpstream.r s)).1.
Proof.
  unfold httpstream.printHTTPResponse, resolvedEnds.
  destruct (dns.GetWithRDNS R (Src (httpstream.net s)) w) as [srcFQDN w1].
  cbn [snd].
  destruct (dns.GetWithRDNS R (Dst (httpstream.net s)) w1) as [dstFQDN w2].
  destruct (httpstream.printBody _ _) as [body b']. simpl. auto.
Qed.

(** One unfolding of [Run], with what the printers keep. *)
Lemma Run_step (fuel : nat) (s : httpstream.Stream) (w w' : dns.World)
    (outs : list Output) :
  httpstream.Run R (S fuel) s w = Some (outs, w') ->
  (outs = [] /\ w' = w)
  \/ exists o s' outs',
       outs = o :: outs'
       /\ httpstream.Run R fuel s' (resolvedEnds R s w) = Some (outs', w')
       /\ httpstream.net s' = httpstream.net s
       /\ httpstream.isClient s' = httpstream.isClient s
       /\ isResponse o = negb (httpstream.isClient s)
       /\ exists body b, bodyOf o = (httpstream.printBody body b).1.
Proof.
  cbn [httpstream.Run].
  destruct (httpstream.isClient s) eqn:EC.
  - destruct (http.ReadRequest (httpstream.r s)) as [[req|] b'].
    + pose proof (printHTTPRequest_stream (httpstream.withReader s b') req w) as H.
      destruct (httpstream.printHTTPRequest R _ req w) as [[o s'] w1].
      destruct H as (Hn & Hc & Hw & Hr & Hb). subst w1.
      change (resolvedEnds R (httpstream.withReader s b') w) with (resolvedEnds R s w).
      destruct (httpstream.Run R fuel s' (resolvedEnds R s w)) as [[outs' w'']|] eqn:ER;
        [|discriminate].
      intros [= <- <-]. right. exists o, s', outs'.
      simpl in Hn, Hc. rewrite EC in Hc. eauto 10.
    + intros [= <- <-]. now left.
  - destruct (http.ReadResponse (httpstream.r s)) as [[resp|] b'].
    + pose proof (printHTTPResponse_stream (httpstream.withReader s b') resp w) as H.
      destruct (httpstream.printHTTPResponse R _ resp w) as [[o s'] w1].
      destruct H as (Hn & Hc & Hw & Hr & Hb). subst w1.
      change (resolvedEnds R (httpstream.withReader s b') w) with (resolvedEnds R s w).
      destruct (httpstream.Run R fuel s' (resolvedEnds R s w)) as [[outs' w'']|] eqn:ER;
        [|discriminate].
      intros [= <- <-]. right. exists o, s', outs'.
      simpl in Hn, Hc. rewrite EC in Hc. eauto 10.
    + intros [= <- <-]. now left.
Qed.

(** X15.  In the stream package the role of a direction is fixed: every
    message that [Run] prints is a request if the stream is the client's and
    a response if it is not, whatever the bytes look like. *)
Theorem Run_keeps_role
    (fuel : nat) (s : httpstream.Stream) (w w' : dns.World) (outs : list Output) :
  httpstream.Run R fuel s w = Some (outs, w') ->
  Forall (fun o => isResponse o = negb (httpstream.isClient s)) outs.
Proof.
  revert s w outs. induction fuel as [|fuel IH]; intros s w outs H; [discriminate|].
  apply Run_step in H.
  destruct H as [[-> _] | (o & s' & outs' & -> & HR & _ & Hc & Hr & _)];
    [constructor|].
  constructor; [exact Hr|]. rewrite <- Hc. exact (IH _ _ _ HR).
Qed.

Lemma resolved_known (s : httpstream.Stream) (w : dns.World) :
  known (Src (httpstream.net s)) (resolvedEnds R s w)
  /\ known (Dst (httpstream.net s)) (resolvedEnds R s w).
Proof.
  unfold resolvedEnds. split.
  - apply GetWithRDNS_keeps_known, GetWithRDNS_makes_known.
  - apply GetWithRDNS_makes_known.
Qed.

Lemma resolved_same (s : httpstream.Stream) (w : dns.World) :
  known (Src (httpstream.net s)) w ->
  known (Dst (httpstream.net s)) w ->
  resolvedEnds R s w = w.
Proof.
  intros Hs Hd. unfold resolvedEnds.
  rewrite (GetWithRDNS_known_same _ _ Hs). now apply GetWithRDNS_known_same.
Qed.

Lemma Run_world_known
    (fuel : nat) (s : httpstream.Stream) (w w' : dns.World) (outs : list Output) :
  known (Src (httpstream.net s)) w ->
  known (Dst (httpstream.net s)) w ->
  httpstream.Run R fuel s w = Some (outs, w') ->
  w' = w.
Proof.
  revert s w outs. induction fuel as [|fuel IH]; intros s w outs Hs Hd H;
    [discriminate|].
  apply Run_step in H.
  destruct H as [[_ ->] | (o & s' & outs' & _ & HR & Hn & _)]; [reflexivity|].
  rewrite (resolved_same s w Hs Hd) in HR.
  apply (IH s' w outs'); [now rewrite Hn | now rewrite Hn | exact HR].
Qed.

(** X16.  However many messages a direction carries, [Run] makes at most
    two reverse look-ups for it: the log grows by at most the source and
    the destination address of the stream, each once, and the forward map
    stays as it was. *)
Theorem Run_looks_up_at_most_twice
    (fuel : nat) (s : httpstream.Stream) (w w' : dns.World) (outs : list Output) :
  httpstream.Run R fuel s w = Some (outs, w') ->
  (exists l, dns.lookups w' = dns.lookups w ++ l
             /\ (List.length l <= 2)%nat
             /\ forall ip, In ip l ->
                  ip = Src (httpstream.net s) \/ ip = Dst (httpstream.net s))
  /\ dns.entries (dns.cache w') = dns.entries (dns.cache w).
Proof.
  intros H.
  assert (Hw : w' = w \/ w' = resolvedEnds R s w).
  { destruct fuel as [|fuel]; [discriminate|].
    apply Run_step in H.
    destruct H as [[_ ->] | (o & s' & outs' & _ & HR & Hn & _)]; [now left|].
    right. destruct (resolved_known s w) as [Hs Hd].
    apply (Run_world_known fuel s' _ _ outs'); [now rewrite Hn | now rewrite Hn | exact HR]. }
  destruct Hw as [-> | ->].
  - split; [|reflexivity]. exists []. rewrite app_nil_r. simpl.
    repeat split; [lia | intros ip []].
  - unfold resolvedEnds. split; [|now rewrite !GetWithRDNS_entries].
    set (w1 := (dns.GetWithRDNS R (Src (httpstream.net s)) w).2).
    destruct (GetWithRDNS_log (Dst (httpstream.net s)) w1) as [-> | ->];
      subst w1;
      destruct (GetWithRDNS_log (Src (httpstream.net s)) w) as [-> | ->].
    + exists []. rewrite app_nil_r. simpl. repeat split; [lia | intros ip []].
    + exists [Src (httpstream.net s)]. simpl.
      repeat split; [lia | intros ip [<- | []]; now left].
    + exists [Dst (httpstream.net s)]. simpl.
      repeat split; [lia | intros ip [<- | []]; now right].
    + exists [Src (httpstream.net s); Dst (httpstream.net s)].
      rewrite <- app_assoc. simpl.
      repeat split; [lia | intros ip [<- | [<- | []]]; auto].
Qed.

Lemma httpstream_printBody_plain (body : option B) (b : bufio.Reader) (bo : BodyOut) :
  http.ReadWithinBuffer L ->
  (httpstream.printBody body b).1 = Some bo ->
  note bo = Plain /\ count bo = len (shown bo) /\ (0 < len (shown bo) <= maxBody)%Z.
Proof.
  intros HL. unfold httpstream.printBody. destruct body as [bd|]; [|discriminate].
  pose proof (HL bd maxBody b ltac:(unfold maxBody; lia)) as Hlen.
  destruct (http.Read bd maxBody b) as [[bodyData bd'] b1]. simpl in *.
  destruct (0 <? len bodyData)%Z eqn:E; [|discriminate].
  apply Z.ltb_lt in E. intros [= <-]. simpl. auto.
Qed.

(** X17.  In the stream package a printed body is the bytes of one read:
    never decompressed, counted as shown, not empty, and at most
    [1024*1024] bytes long, whatever the message announces. *)
Theorem Run_prints_bodies_as_read
    (fuel : nat) (s : httpstream.Stream) (w w' : dns.World) (outs : list Output) :
  http.ReadWithinBuffer L ->
  httpstream.Run R fuel s w = Some (outs, w') ->
  Forall plainWithinBuffer outs.
Proof.
  intros HL. revert s w outs.
  induction fuel as [|fuel IH]; intros s w outs H; [discriminate|].
  apply Run_step in H.
  destruct H as [[-> _] | (o & s' & outs' & -> & HR & _ & _ & _ & body & b & Hb)];
    [constructor|].
  constructor; [|exact (IH _ _ _ HR)].
  intros bo Hbo. rewrite Hb in Hbo.
  exact (httpstream_printBody_plain body b bo HL Hbo).
Qed.

End StreamPackage.

Lemma Run_keeps_role_witness :
  exists outs w',
    httpstream.Run (L := reference) noName 5 clientStream emptyWorld = Some (outs, w')
    /\ outs <> []
    /\ Forall (fun o => isResponse o = negb (httpstream.isClient clientStream)) outs.
Proof.
  eexists. eexists. split; [vm_compute; reflexivity|]. split; [discriminate|].
  eapply (Run_keeps_role (L := reference) noName 5 clientStream emptyWorld).
  vm_compute. reflexivity.
Defined.

Lemma Run_looks_up_at_most_twice_witness :
  exists outs w',
    httpstream.Run (L := reference) noName 5 clientStream emptyWorld = Some (outs, w')
    /\ dns.lookups w' = ["10.0.0.1"; "10.0.0.2"]
    /\ (exists l, dns.lookups w' = dns.lookups emptyWorld ++ l
                  /\ (List.length l <= 2)%nat
                  /\ forall ip, In ip l ->
                       ip = Src (httpstream.net clientStream)
                       \/ ip = Dst (httpstream.net clientStream))
    /\ dns.entries (dns.cache w') = dns.entries (dns.cache emptyWorld).
Proof.
  eexists. eexists. split; [vm_compute; reflexivity|]. split; [reflexivity|].
  eapply (Run_looks_up_at_most_twice (L := reference) noName 5 clientStream emptyWorld).
  vm_compute. reflexivity.
Defined.

Lemma Run_prints_bodies_as_read_witness :
  exists outs w',
    httpstream.Run (L := reference) noName 5 clientStream emptyWorld = Some (outs, w')
    /\ map (fun o => option_map shown (bodyOf o)) outs = [Some (bytes "abc")]
    /\ Forall plainWithinBuffer outs.
Proof.
  eexists. eexists. split; [vm_compute; reflexivity|]. split; [reflexivity|].
  eapply (Run_prints_bodies_as_read (L := reference) noName 5 clientStream emptyWorld).
  - exact reference_ReadWithinBuffer.
  - vm_compute. reflexivity.
Defined.

(** ** From a DNS answer to the name printed with a message *)

Section Correlation.
Context {B : Type} `{L : http.Lib B}.

Lemma cachedFQDN_after_answers (ip name : string) (answers : list dns.RR)
    (c : dns.Cache) :
  lastAnswer ip answers = Some name ->
  main.cachedFQDN (foldl dns.addAnswer c answers) ip = strings.TrimSuffix name ".".
Proof.
  intros H. unfold main.cachedFQDN, dns.Get.
  rewrite addAnswers_lookup, H. reflexivity.
Qed.

(** X18.  DNS answers reach the HTTP output.  When the cache a stream
    prints from is the one [ParsePacket] left after a DNS response, every
    message of the stream carries, for the source and for the destination
    address alike, the name of the last A or AAAA answer for that address,
    less its final dot - whatever the cache held for the address before. *)
Theorem dns_answer_names_endpoints
    (fuel : nat) (h : main.HTTPStream) (c : dns.Cache)
    (question : string * string) (questions : list (string * string))
    (answers : list dns.RR) (outs : list Output) :
  main.run fuel h
    (dns.ParsePacket (Some (dns.mkMsg true (question :: questions) answers)) c).2
  = Some outs ->
  Forall (namedBy h answers) outs.
Proof.
  intros H. apply run_facts in H.
  eapply Forall_impl; [exact H|].
  intros o [[Hs Hd] _]. unfold dns.ParsePacket in Hs, Hd.
  destruct question as [q qtype]. simpl in Hs, Hd.
  split; intros name Hn.
  - rewrite Hs. simpl. now apply cachedFQDN_after_answers.
  - rewrite Hd. simpl. now apply cachedFQDN_after_answers.
Qed.

End Correlation.

Lemma dns_answer_names_endpoints_witness :
  exists outs,
    main.run (L := reference) 5 exampleRequest
      (dns.ParsePacket (Some serverAnswer) dns.NewCache).2 = Some outs
    /\ map (fun o => fqdn (dstOf o)) outs = ["example.com"]
    /\ Forall (namedBy exampleRequest (dns.Answer serverAnswer)) outs.
Proof.
  eexists. split; [vm_compute; reflexivity|]. split; [reflexivity|].
  apply (dns_answer_names_endpoints (L := reference) 5 exampleRequest dns.NewCache
           ("example.com", "A") [] (dns.Answer serverAnswer)).
  vm_compute. reflexivity.
Defined.
